(** * Response normalizer of the WebUI client

    A shallow embedding of the Python class [WebUIClient]: the methods
    [_extract_response], [_extract_sources], [_parse_source_field],
    [_parse_openwebui_sources], [_extract_sources_from_functions] and
    [_deduplicate_sources], over decoded JSON documents.

    Python values are the values [json.loads] can produce.  Exceptions are
    explicit: an expression that can raise has type [result A], a method
    body that appends to a local list while it can raise lives in the
    monad [M], which keeps the list when an exception unwinds, as a
    [try]/[except] around a loop does. *)

From Stdlib Require Import String Ascii List ZArith Bool Arith Lia.
From Stdlib Require Import DecimalString.
From Stdlib Require Import Floats.SpecFloat.
Import ListNotations.
Local Open Scope list_scope.
Local Open Scope string_scope.

(** ** Python values, exceptions and the builtins the client uses *)
Module Py.

(** The exception classes that the modelled expressions can raise.
    [ValueError] also stands for [json.JSONDecodeError], its subclass. *)
Inductive exn : Type :=
| TypeError
| AttributeError
| KeyError
| IndexError
| ValueError
| OverflowError.

Inductive result (A : Type) : Type :=
| Ok (a : A)
| Raise (e : exn).
Arguments Ok {A} a.
Arguments Raise {A} e.

Definition rbind {A B : Type} (r : result A) (k : A -> result B) : result B :=
  match r with
  | Ok a => k a
  | Raise e => Raise e
  end.

(** [try: body except Exception: handler]; the handler may raise itself. *)
Definition try_except {A : Type} (body : result A) (handler : exn -> result A)
  : result A :=
  match body with
  | Ok a => Ok a
  | Raise e => handler e
  end.

(** A decoded JSON document.  Python [int] is unbounded, [float] is IEEE
    binary64, a [dict] keeps its insertion order. *)
#[warnings="-register-all"]
Inductive json : Type :=
| JNull
| JBool (b : bool)
| JInt (n : Z)
| JFloat (x : spec_float)
| JStr (s : string)
| JList (l : list json)
| JDict (d : list (string * json)).

(** binary64 *)
Definition prec : Z := 53.
Definition emax : Z := 1024.
Definition float_one : spec_float := S754_finite false 4503599627370496 (-52).

(** *** Strings.  A character is a code point below 256. *)

(** [str.isspace] on the code points below 256. *)
Definition is_space (c : ascii) : bool :=
  let n := nat_of_ascii c in
  ((9 <=? n)%nat && (n <=? 13)%nat) || ((28 <=? n)%nat && (n <=? 32)%nat)
  || (n =? 133)%nat || (n =? 160)%nat.

Fixpoint lstrip (s : string) : string :=
  match s with
  | EmptyString => EmptyString
  | String c r => if is_space c then lstrip r else s
  end.

Fixpoint rstrip (s : string) : string :=
  match s with
  | EmptyString => EmptyString
  | String c r =>
      match rstrip r with
      | EmptyString => if is_space c then EmptyString else String c EmptyString
      | r' => String c r'
      end
  end.

(** [s.strip()] *)
Definition strip (s : string) : string := rstrip (lstrip s).

(** [s.startswith(p)] *)
Definition startswith (s p : string) : bool := String.prefix p s.

(** [k in s] on two strings *)
Definition str_contains (k s : string) : bool :=
  match String.index 0 k s with
  | Some _ => true
  | None => false
  end.

(** the characters of a string, as Python iterates them *)
Fixpoint str_chars (s : string) : list string :=
  match s with
  | EmptyString => []
  | String c r => String c EmptyString :: str_chars r
  end.

(** The decimal text of an [int]: what [str(n)] returns when it returns
    (see [str_checked] below for when it does not). *)
Definition str_of_int (n : Z) : string := NilZero.string_of_int (Z.to_int n).

(** *** Dictionaries *)
Fixpoint dict_get (d : list (string * json)) (k : string) : option json :=
  match d with
  | [] => None
  | (k', v) :: r => if String.eqb k' k then Some v else dict_get r k
  end.

(** *** Truth value testing *)
Definition float_is_zero (x : spec_float) : bool :=
  match x with
  | S754_zero _ => true
  | _ => false
  end.

Definition truthy (v : json) : bool :=
  match v with
  | JNull => false
  | JBool b => b
  | JInt n => negb (n =? 0)%Z
  | JFloat x => negb (float_is_zero x)
  | JStr s => negb (s =? "")
  | JList l => match l with [] => false | _ => true end
  | JDict d => match d with [] => false | _ => true end
  end.

(** [a or b]: [b] is evaluated only when [a] is falsy. *)
Definition py_or (a b : result json) : result json :=
  rbind a (fun x => if truthy x then Ok x else b).

(** [a or b] on two tests *)
Definition or_else (a b : result bool) : result bool :=
  rbind a (fun x => if x then Ok true else b).

(** [a and b] on two tests *)
Definition and_then (a b : result bool) : result bool :=
  rbind a (fun x => if x then b else Ok false).

(** *** Containers *)

Definition is_str (k : string) (v : json) : bool :=
  match v with
  | JStr s => String.eqb s k
  | _ => false
  end.

(** [k in c] for a string [k] *)
Definition py_in (k : string) (c : json) : result bool :=
  match c with
  | JDict d => Ok (match dict_get d k with Some _ => true | None => false end)
  | JList l => Ok (existsb (is_str k) l)
  | JStr s => Ok (str_contains k s)
  | _ => Raise TypeError
  end.

(** [c[k]] for a string [k] *)
Definition py_getitem (c : json) (k : string) : result json :=
  match c with
  | JDict d => match dict_get d k with Some v => Ok v | None => Raise KeyError end
  | _ => Raise TypeError
  end.

(** [l[i]] on a list *)
Definition list_index (l : list json) (i : nat) : result json :=
  match nth_error l i with
  | Some v => Ok v
  | None => Raise IndexError
  end.

(** [c[i]] for a non-negative integer [i] *)
Definition py_index (c : json) (i : nat) : result json :=
  match c with
  | JList l => list_index l i
  | JStr s =>
      match nth_error (str_chars s) i with
      | Some ch => Ok (JStr ch)
      | None => Raise IndexError
      end
  | JDict _ => Raise KeyError
  | _ => Raise TypeError
  end.

(** [c.get(k, default)] *)
Definition py_get (c : json) (k : string) (default : json) : result json :=
  match c with
  | JDict d => Ok (match dict_get d k with Some v => v | None => default end)
  | _ => Raise AttributeError
  end.

(** [c.keys()] *)
Definition py_keys (c : json) : result (list string) :=
  match c with
  | JDict d => Ok (map fst d)
  | _ => Raise AttributeError
  end.

(** [v.strip()] *)
Definition py_strip (v : json) : result string :=
  match v with
  | JStr s => Ok (strip s)
  | _ => Raise AttributeError
  end.

(** the sequence a [for] loop over [c] visits *)
Definition py_iter (c : json) : result (list json) :=
  match c with
  | JList l => Ok l
  | JStr s => Ok (map JStr (str_chars s))
  | JDict d => Ok (map (fun kv => JStr (fst kv)) d)
  | _ => Raise TypeError
  end.

(** [1 - d]: [bool] is an [int]; an [int] meets a [float] as a [float]. *)
Definition one_minus (d : json) : result json :=
  match d with
  | JInt n => Ok (JInt (1 - n))
  | JBool b => Ok (JInt (1 - (if b then 1 else 0)))
  | JFloat x => Ok (JFloat (SFsub prec emax float_one x))
  | _ => Raise TypeError
  end.

(** *** The limit on converting an [int] to text

    CPython (3.11 and later, and the later releases of 3.7 to 3.10)
    refuses to render an [int] of more than [sys.get_int_max_str_digits()]
    decimal digits, 4300 unless reconfigured: [str], [repr] and an
    f-string field raise [ValueError], also for an [int] inside a list or
    a dict that is rendered. *)
Definition int_max_str_digits : Z := 4300.

Definition too_long (n : Z) : bool := (10 ^ int_max_str_digits <=? Z.abs n)%Z.

Fixpoint exceeds_limit (v : json) : bool :=
  match v with
  | JInt n => too_long n
  | JList l => existsb exceeds_limit l
  | JDict d => existsb (fun kv => let '(_, x) := kv in exceeds_limit x) d
  | _ => false
  end.

(** *** Converting an [int] to a [float]

    [float(n)], which formatting an [int] with a float presentation type
    such as [.3f] applies first: the nearest binary64 value, ties to even;
    [OverflowError] when that is not finite. *)
Definition float_of_int (n : Z) : spec_float := binary_normalize prec emax n 0 false.

Definition float_overflows (n : Z) : bool :=
  match float_of_int n with
  | S754_infinity _ => true
  | _ => false
  end.

(** *** What the interpreter and the [json] module supply

    [repr] of a [str] and of a [float], the per-process [hash] of a [str]
    and [json.loads] are not code of the client. *)
Record runtime : Type := {
  str_repr : string -> string;
  float_repr : spec_float -> string;
  str_hash : string -> Z;
  json_loads : string -> result json
}.

Section Repr.
Variable rt : runtime.

Fixpoint py_repr (v : json) : string :=
  match v with
  | JNull => "None"
  | JBool true => "True"
  | JBool false => "False"
  | JInt n => str_of_int n
  | JFloat x => float_repr rt x
  | JStr s => str_repr rt s
  | JList l => "[" ++ String.concat ", " (map py_repr l) ++ "]"
  | JDict d =>
      "{" ++ String.concat ", "
               (map (fun kv => let '(k, x) := kv in
                               str_repr rt k ++ ": " ++ py_repr x) d) ++ "}"
  end.

(** The text of [str(v)], also of an f-string field [{v}].  The ints of
    a document that [json.loads] decoded are within the digit limit below,
    so on the values taken from such a document [str] returns this text. *)
Definition py_str (v : json) : string :=
  match v with
  | JStr s => s
  | _ => py_repr v
  end.

(** [str(v)] on a value that may hold a computed [int] *)
Definition str_checked (v : json) : result string :=
  if exceeds_limit v then Raise ValueError else Ok (py_str v).

End Repr.

(** *** A local list that survives an exception

    [M S A] is a computation over a state [S] that either returns or
    raises; the state reached is returned in both cases. *)
Definition M (St A : Type) : Type := St -> St * result A.

Definition ret {St A : Type} (a : A) : M St A := fun st => (st, Ok a).

Definition bind {St A B : Type} (m : M St A) (k : A -> M St B) : M St B :=
  fun st =>
    match m st with
    | (st', Ok a) => k a st'
    | (st', Raise e) => (st', Raise e)
    end.

Definition lift {St A : Type} (r : result A) : M St A := fun st => (st, r).

Definition get {St : Type} : M St St := fun st => (st, Ok st).

(** [sources.append(x)] *)
Definition append (x : json) : M (list json) unit :=
  fun st => ((st ++ [x])%list, Ok tt).

(** [sources.extend(l)] *)
Definition extend (l : list json) : M (list json) unit :=
  fun st => ((st ++ l)%list, Ok tt).

(** [for i, x in enumerate(l, i0): f(i, x)] *)
Fixpoint for_enumerate {St A : Type} (i0 : nat) (l : list A)
    (f : nat -> A -> M St unit) : M St unit :=
  match l with
  | [] => ret tt
  | x :: r => bind (f i0 x) (fun _ => for_enumerate (S i0) r f)
  end.

(** [for x in l: f(x)] *)
Definition for_each {St A : Type} (l : list A) (f : A -> M St unit) : M St unit :=
  for_enumerate 0 l (fun _ => f).

(** the list a method returns after [try: body except Exception: log] *)
Definition collected (body : M (list json) unit) : list json :=
  fst (body []).

End Py.

(** ** The client *)
Module WebUIClient.
Import Py.

Declare Scope py_scope.
Delimit Scope py_scope with py.
Notation "x <- m ;; k" := (bind m (fun x => k))
  (at level 100, m at next level, right associativity) : py_scope.
Notation "m ;; k" := (bind m (fun _ => k))
  (at level 100, right associativity) : py_scope.
Notation "'let!' x ':=' r 'in' k" := (rbind r (fun x => k))
  (at level 100, x name, r at next level, k at level 200,
   right associativity) : py_scope.
Local Open Scope py_scope.

(** The value of [extracted_data] that [_extract_response] returns. *)
Record response : Type := {
  content : string;
  sources : list json;
  raw_response : json
}.

(** *** [_parse_source_field] *)

(** [{'url': item, 'title': '', 'snippet': '', 'score': 0}] *)
Definition url_source (item : json) : json :=
  JDict [("url", item); ("title", JStr ""); ("snippet", JStr "");
         ("score", JInt 0)].

(** The dict literal built from an object-shaped item. *)
Definition object_source (item : json) : result json :=
  let! title := py_get item "title" (JStr "") in
  let! url := py_or (py_or (py_get item "url" (JStr ""))
                           (py_get item "link" (JStr "")))
                    (py_get item "source" (JStr "")) in
  let! snippet := py_or (py_or (py_get item "snippet" (JStr ""))
                               (py_get item "content" (JStr "")))
                        (py_get item "text" (JStr "")) in
  let! score := py_or (py_get item "score" (JInt 0))
                      (py_get item "relevance" (JInt 0)) in
  Ok (JDict [("title", title); ("url", url); ("snippet", snippet);
             ("score", score)]).

(** [source = {...}; if source['url'] or source['title']: sources.append(source)] *)
Definition add_object_source (item : json) : M (list json) unit :=
  source <- lift (object_source item) ;;
  keep <- lift (py_or (py_getitem source "url") (py_getitem source "title")) ;;
  if truthy keep then append source else ret tt.

Definition parse_source_field_body (source_field : json) : M (list json) unit :=
  match source_field with
  | JList items =>
      for_each items (fun item =>
        match item with
        | JDict _ => add_object_source item
        | JStr _ => append (url_source item)
        | _ => ret tt
        end)
  | JDict _ => add_object_source source_field
  | JStr s =>
      if startswith s "http" || startswith s "www"
      then append (url_source source_field)
      else ret tt
  | _ => ret tt
  end.

Definition _parse_source_field (source_field : json) : list json :=
  if negb (truthy source_field) then []
  else collected (parse_source_field_body source_field).

Section Client.
Variable rt : runtime.

(** *** [_parse_openwebui_sources] *)

(** [x = source_item.get(k, []); if not isinstance(x, list): x = [x] if x else []] *)
Definition as_list (v : json) : list json :=
  match v with
  | JList l => l
  | _ => if truthy v then [v] else []
  end.

(** [metadata_list[i] if i < len(metadata_list) else {}] *)
Definition metadata_at (metadata_list : list json) (i : nat) : result json :=
  if (i <? length metadata_list)%nat then list_index metadata_list i
  else Ok (JDict []).

(** [distances[i] if i < len(distances) else 0] *)
Definition distance_at (distances : list json) (i : nat) : result json :=
  if (i <? length distances)%nat then list_index distances i else Ok (JInt 0).

(** [1 - distance if distance else 0] *)
Definition score_of (distance : json) : result json :=
  if truthy distance then one_minus distance else Ok (JInt 0).

(** [str(doc_text)[:300] + "..." if len(str(doc_text)) > 300 else str(doc_text)] *)
Definition snippet_of (doc_text : json) : string :=
  let s := py_str rt doc_text in
  if (300 <? String.length s)%nat then substring 0 300 s ++ "..." else s.

(** The body of the loop over [enumerate(documents)]. *)
Definition add_document (collection_id collection_type : json)
    (metadata_list distances : list json) (i : nat) (doc_text : json)
  : M (list json) unit :=
  metadata <- lift (metadata_at metadata_list i) ;;
  distance <- lift (distance_at distances i) ;;
  title <- lift (py_or (py_or (py_get metadata "title" (JStr ""))
                              (py_get metadata "ti" (JStr "")))
                       (py_get metadata "name" (JStr ""))) ;;
  author <- lift (py_or (py_get metadata "author" (JStr ""))
                        (py_get metadata "au" (JStr ""))) ;;
  source_url <- lift (py_or (py_get metadata "url" (JStr ""))
                            (py_get metadata "hdl" (JStr ""))) ;;
  has_page <- lift (py_get metadata "page" JNull) ;;
  page_info <- lift (if truthy has_page
                     then let! p := py_get metadata "page" (JStr "") in
                          Ok (JStr ("Page " ++ py_str rt p))
                     else Ok (JStr "")) ;;
  score <- lift (score_of distance) ;;
  let parsed_source :=
    JDict [("title", title); ("url", source_url);
           ("snippet", JStr (snippet_of doc_text)); ("score", score);
           ("author", author); ("page", page_info);
           ("collection_id", collection_id);
           ("collection_type", collection_type); ("metadata", metadata)] in
  keep <- lift (py_or (py_or (py_getitem parsed_source "title")
                             (py_getitem parsed_source "snippet"))
                      (py_getitem parsed_source "url")) ;;
  if truthy keep then append parsed_source else ret tt.

(** The body of the loop over [sources_data]. *)
Definition add_source_item (source_item : json) : M (list json) unit :=
  match source_item with
  | JDict _ =>
      source_info <- lift (py_get source_item "source" (JDict [])) ;;
      collection_id <- lift (if truthy source_info
                             then py_get source_info "id" (JStr "")
                             else Ok (JStr "")) ;;
      collection_type <- lift (if truthy source_info
                               then py_get source_info "type" (JStr "")
                               else Ok (JStr "")) ;;
      documents <- lift (py_get source_item "document" (JList [])) ;;
      metadata_list <- lift (py_get source_item "metadata" (JList [])) ;;
      distances <- lift (py_get source_item "distances" (JList [])) ;;
      for_enumerate 0 (as_list documents)
        (add_document collection_id collection_type
                      (as_list metadata_list) (as_list distances))
  | _ => ret tt
  end.

Definition parse_openwebui_sources_body (sources_data : json)
  : M (list json) unit :=
  items <- lift (py_iter sources_data) ;;
  for_each items add_source_item.

Definition _parse_openwebui_sources (sources_data : json) : list json :=
  collected (parse_openwebui_sources_body sources_data).

(** *** [_extract_sources_from_functions] *)

(** [if isinstance(args, str): args = json.loads(args)]
    [if 'sources' in args: sources.extend(self._parse_source_field(args['sources']))] *)
Definition add_argument_sources (args : json) : M (list json) unit :=
  args <- lift (match args with
                | JStr s => json_loads rt s
                | _ => Ok args
                end) ;;
  has_sources <- lift (py_in "sources" args) ;;
  if has_sources
  then v <- lift (py_getitem args "sources") ;; extend (_parse_source_field v)
  else ret tt.

Definition extract_sources_from_functions_body (function_data : json)
  : M (list json) unit :=
  match function_data with
  | JList funcs =>
      for_each funcs (fun func =>
        has_args <- lift (and_then (py_in "function" func)
                            (let! f := py_getitem func "function" in
                             py_in "arguments" f)) ;;
        if has_args
        then args <- lift (let! f := py_getitem func "function" in
                           py_getitem f "arguments") ;;
             add_argument_sources args
        else ret tt)
  | JDict _ =>
      has_args <- lift (py_in "arguments" function_data) ;;
      if has_args
      then args <- lift (py_getitem function_data "arguments") ;;
           add_argument_sources args
      else ret tt
  | _ => ret tt
  end.

Definition _extract_sources_from_functions (function_data : json) : list json :=
  collected (extract_sources_from_functions_body function_data).

(** *** [_deduplicate_sources] *)

(** [if source.get(field): key_parts.append(f"label:{source[field]}")] *)
Definition add_key_part (source : json) (field label : string)
    (key_parts : list string) : result (list string) :=
  let! present := py_get source field JNull in
  if truthy present
  then let! v := py_getitem source field in
       let! text := str_checked rt v in
       Ok (key_parts ++ [(label ++ ":" ++ text)%string])%list
  else Ok key_parts.

(** The key computed inside the [try] of the loop.  A source record of
    the OpenWebUI parser holds the computed score [1 - distance], so
    [str(source)] is where the digit limit can be met. *)
Definition dedup_key (source : json) : result string :=
  let! key_parts := add_key_part source "url" "url" [] in
  let! key_parts := add_key_part source "title" "title" key_parts in
  let! key_parts := add_key_part source "collection_id" "collection" key_parts in
  let! key_parts := add_key_part source "page" "page" key_parts in
  match key_parts with
  | [] => let! text := str_checked rt source in
          Ok (str_of_int (str_hash rt text))
  | _ => Ok (String.concat "|" key_parts)
  end.

(** [key in seen] *)
Definition seen_mem (key : string) (seen : list string) : bool :=
  existsb (String.eqb key) seen.

(** One turn of the loop over [sources]; the state is [(seen, unique_sources)].
    When the key cannot be computed the source is kept. *)
Definition dedup_step (st : list string * list json) (source : json)
  : list string * list json :=
  let '(seen, unique_sources) := st in
  match dedup_key source with
  | Ok key =>
      if negb (key =? "") && negb (seen_mem key seen)
      then (key :: seen, unique_sources ++ [source])%list
      else (seen, unique_sources)
  | Raise _ => (seen, unique_sources ++ [source])%list
  end.

Definition _deduplicate_sources (sources : list json) : list json :=
  snd (fold_left dedup_step sources ([], [])).

(** *** [_extract_sources] *)

Definition source_fields : list string :=
  ["citations"; "references"; "links"; "source_documents"; "source_links";
   "metadata"].

(** [for field in source_fields: if field in obj: sources.extend(...(obj[field]))] *)
Definition scan_fields (obj : json) : M (list json) unit :=
  for_each source_fields (fun field =>
    present <- lift (py_in field obj) ;;
    if present
    then v <- lift (py_getitem obj field) ;; extend (_parse_source_field v)
    else ret tt).

(** The body of the loop over [response_data['choices']]. *)
Definition scan_choice (choice : json) : M (list json) unit :=
  has_message <- lift (py_in "message" choice) ;;
  (if has_message
   then message <- lift (py_getitem choice "message") ;; scan_fields message
   else ret tt) ;;
  has_call <- lift (or_else (py_in "function_call" choice)
                            (py_in "tool_calls" choice)) ;;
  if has_call
  then function_data <- lift (py_or (py_get choice "function_call" JNull)
                                    (py_get choice "tool_calls" (JList []))) ;;
       extend (_extract_sources_from_functions function_data)
  else ret tt.

(** [response_data.get('context') or response_data.get('retrieved_docs')] *)
Definition context_data (response_data : json) : result json :=
  py_or (py_get response_data "context" JNull)
        (py_get response_data "retrieved_docs" JNull).

(** The [try] block; its value is [unique_sources]. *)
Definition extract_sources_body (response_data : json)
  : M (list json) (list json) :=
  has_sources <- lift (py_in "sources" response_data) ;;
  (if has_sources
   then v <- lift (py_getitem response_data "sources") ;;
        extend (_parse_openwebui_sources v)
   else ret tt) ;;
  scan_fields response_data ;;
  has_choices <- lift (py_in "choices" response_data) ;;
  (if has_choices
   then choices <- lift (py_getitem response_data "choices") ;;
        items <- lift (py_iter choices) ;;
        for_each items scan_choice
   else ret tt) ;;
  has_context <- lift (or_else (py_in "context" response_data)
                               (py_in "retrieved_docs" response_data)) ;;
  (if has_context
   then v <- lift (context_data response_data) ;;
        extend (_parse_source_field v)
   else ret tt) ;;
  sources <- get ;;
  ret (_deduplicate_sources sources).

(** The handler formats [list(response_data.keys())] before it returns [[]]. *)
Definition _extract_sources (response_data : json) : result (list json) :=
  try_except (snd (extract_sources_body response_data []))
    (fun _ => let! _ := py_keys response_data in Ok []).

(** *** [_extract_response] *)

(** The branches that assign [content]; it starts as the empty string. *)
Definition extract_content (response_data : json) : result string :=
  let! has_choices :=
    and_then (py_in "choices" response_data)
             (let! v := py_getitem response_data "choices" in Ok (truthy v)) in
  if has_choices then
    let! choices := py_getitem response_data "choices" in
    let! choice := py_index choices 0 in
    let! has_content :=
      and_then (py_in "message" choice)
               (let! m := py_getitem choice "message" in py_in "content" m) in
    if has_content then
      let! m := py_getitem choice "message" in
      let! c := py_getitem m "content" in
      py_strip c
    else
      let! has_text := py_in "text" choice in
      if has_text then let! t := py_getitem choice "text" in py_strip t
      else Ok ""
  else
    let! has_response := py_in "response" response_data in
    if has_response then
      let! r := py_getitem response_data "response" in py_strip r
    else
      let! has_content := py_in "content" response_data in
      if has_content then
        let! c := py_getitem response_data "content" in py_strip c
      else
        let! has_message := py_in "message" response_data in
        if has_message then
          let! m := py_getitem response_data "message" in
          match m with
          | JStr _ => py_strip m
          | JDict _ =>
              let! has_content := py_in "content" m in
              if has_content then
                let! c := py_getitem m "content" in py_strip c
              else Ok ""
          | _ => Ok ""
          end
        else Ok "".

Definition error_content : string := "[ERROR: Failed to parse API response]".

(** The [try] block. *)
Definition extract_response_body (response_data : json) : result response :=
  let! content := extract_content response_data in
  let! sources := _extract_sources response_data in
  let content := if content =? ""
                 then strip (py_str rt response_data)
                 else content in
  Ok {| content := content; sources := sources;
        raw_response := response_data |}.

Definition _extract_response (response_data : json) : result response :=
  try_except (extract_response_body response_data)
    (fun _ => Ok {| content := error_content; sources := [];
                    raw_response := response_data |}).

End Client.
End WebUIClient.

(** ** What the methods compute, in closed form

    Pure readings of the loops and of the dict literals, used to state
    the properties below; each one is proved equal to the code. *)
Module Spec.
Import Py WebUIClient.

(** [d.get(k, default)] on a dict *)
Definition dget (d : list (string * json)) (k : string) (default : json) : json :=
  match dict_get d k with
  | Some v => v
  | None => default
  end.

(** the value of [a or b] *)
Definition or_val (a b : json) : json := if truthy a then a else b.

Definition is_index_error {A : Type} (r : result A) : bool :=
  match r with
  | Raise IndexError => true
  | _ => false
  end.

(** a computation that never ends in [IndexError], from any state *)
Definition never_index_error {St A : Type} (m : M St A) : Prop :=
  forall st, is_index_error (snd (m st)) = false.

(** *** Generic parser *)

Definition object_url (d : list (string * json)) : json :=
  or_val (or_val (dget d "url" (JStr "")) (dget d "link" (JStr "")))
         (dget d "source" (JStr "")).

Definition object_record (d : list (string * json)) : json :=
  JDict [("title", dget d "title" (JStr ""));
         ("url", object_url d);
         ("snippet", or_val (or_val (dget d "snippet" (JStr ""))
                                    (dget d "content" (JStr "")))
                            (dget d "text" (JStr "")));
         ("score", or_val (dget d "score" (JInt 0)) (dget d "relevance" (JInt 0)))].

(** the records one object contributes *)
Definition object_sources (d : list (string * json)) : list json :=
  if truthy (object_url d) || truthy (dget d "title" (JStr ""))
  then [object_record d] else [].

(** the records one element of a list-shaped field contributes *)
Definition item_sources (item : json) : list json :=
  match item with
  | JDict d => object_sources d
  | JStr _ => [url_source item]
  | _ => []
  end.

(** *** OpenWebUI parser *)

Definition document_title (md : list (string * json)) : json :=
  or_val (or_val (dget md "title" (JStr "")) (dget md "ti" (JStr "")))
         (dget md "name" (JStr "")).

Definition document_url (md : list (string * json)) : json :=
  or_val (dget md "url" (JStr "")) (dget md "hdl" (JStr "")).

Definition document_page (rt : runtime) (md : list (string * json)) : json :=
  if truthy (dget md "page" JNull)
  then JStr ("Page " ++ py_str rt (dget md "page" (JStr "")))
  else JStr "".

Definition document_record (rt : runtime) (collection_id collection_type : json)
    (md : list (string * json)) (score : json) (doc_text : json) : json :=
  JDict [("title", document_title md); ("url", document_url md);
         ("snippet", JStr (snippet_of rt doc_text)); ("score", score);
         ("author", or_val (dget md "author" (JStr "")) (dget md "au" (JStr "")));
         ("page", document_page rt md);
         ("collection_id", collection_id);
         ("collection_type", collection_type); ("metadata", JDict md)].

(** the admission test of the OpenWebUI parser *)
Definition document_kept (rt : runtime) (md : list (string * json))
    (doc_text : json) : bool :=
  truthy (document_title md) || negb (snippet_of rt doc_text =? "")
  || truthy (document_url md).

(** *** Deduplication *)

Definition key_fields : list (string * string) :=
  [("url", "url"); ("title", "title"); ("collection_id", "collection");
   ("page", "page")].

(** the labelled component of one field: present only when non-empty *)
Definition key_component (rt : runtime) (d : list (string * json))
    (field label : string) : list string :=
  match dict_get d field with
  | Some v => if truthy v then [label ++ ":" ++ py_str rt v] else []
  | None => []
  end.

(** the components of the key, in field order *)
Definition key_components (rt : runtime) (d : list (string * json))
  : list string :=
  flat_map (fun fl : string * string =>
              key_component rt d (fst fl) (snd fl)) key_fields.

Definition record_key (rt : runtime) (d : list (string * json)) : string :=
  match key_components rt d with
  | [] => str_of_int (str_hash rt (py_str rt (JDict d)))
  | parts => String.concat "|" parts
  end.

(** no value of the record holds an [int] beyond the digit limit, so the
    record and each of its fields can be rendered *)
Definition within_limit (d : list (string * json)) : bool :=
  negb (exceeds_limit (JDict d)).

(** Keep a record exactly when no earlier record of the input has its key. *)
Fixpoint first_seen (rt : runtime) (earlier l : list (list (string * json)))
  : list (list (string * json)) :=
  match l with
  | [] => []
  | d :: r =>
      let rest := first_seen rt (earlier ++ [d])%list r in
      if existsb (fun d' => record_key rt d' =? record_key rt d) earlier
      then rest else d :: rest
  end.

(** the loop of [_deduplicate_sources] as a function of [seen] *)
Fixpoint dedup_from (rt : runtime) (seen : list string) (l : list json)
  : list json :=
  match l with
  | [] => []
  | x :: r =>
      match dedup_key rt x with
      | Ok key =>
          if negb (key =? "") && negb (seen_mem key seen)
          then x :: dedup_from rt (key :: seen) r
          else dedup_from rt seen r
      | Raise _ => x :: dedup_from rt seen r
      end
  end.

(** *** Scanner *)

(** the records the six generic fields of an object contribute *)
Definition fields_sources (d : list (string * json)) : list json :=
  flat_map (fun field => match dict_get d field with
                         | Some v => _parse_source_field v
                         | None => []
                         end) source_fields.

Definition has_key (d : list (string * json)) (k : string) : bool :=
  match dict_get d k with
  | Some _ => true
  | None => false
  end.

(** the records one object-shaped choice contributes *)
Definition choice_sources (rt : runtime) (c : list (string * json)) : list json :=
  ((match dict_get c "message" with
    | Some (JDict m) => fields_sources m
    | _ => []
    end)
   ++ (if has_key c "function_call" || has_key c "tool_calls"
       then _extract_sources_from_functions rt
              (or_val (dget c "function_call" JNull) (dget c "tool_calls" (JList [])))
       else []))%list.

(** a choice the scanner can walk: an object whose [message], if any, is
    an object *)
Definition walkable_choice (c : json) : bool :=
  match c with
  | JDict cd =>
      match dict_get cd "message" with
      | None | Some (JDict _) => true
      | Some _ => false
      end
  | _ => false
  end.

Definition walkable (d : list (string * json)) : bool :=
  match dict_get d "choices" with
  | None => true
  | Some (JList cs) => forallb walkable_choice cs
  | Some _ => false
  end.

Definition choices_sources (rt : runtime) (d : list (string * json)) : list json :=
  match dict_get d "choices" with
  | Some (JList cs) =>
      flat_map (fun c => match c with
                         | JDict cd => choice_sources rt cd
                         | _ => []
                         end) cs
  | _ => []
  end.

Definition context_sources (d : list (string * json)) : list json :=
  if has_key d "context" || has_key d "retrieved_docs"
  then _parse_source_field (or_val (dget d "context" JNull)
                                   (dget d "retrieved_docs" JNull))
  else [].

(** every location's contribution, in scan order *)
Definition located_sources (rt : runtime) (d : list (string * json)) : list json :=
  ((match dict_get d "sources" with
    | Some v => _parse_openwebui_sources rt v
    | None => []
    end)
   ++ fields_sources d ++ choices_sources rt d ++ context_sources d)%list.

(** *** Content extractor *)

(** the document takes one of the branches that assign [content] *)
Definition recognized (response_data : json) : result bool :=
  or_else (and_then (py_in "choices" response_data)
                    (rbind (py_getitem response_data "choices")
                           (fun v => Ok (truthy v))))
    (or_else (py_in "response" response_data)
       (or_else (py_in "content" response_data)
                (py_in "message" response_data))).

End Spec.

(** ** Sample values *)
Module Samples.
Import Py WebUIClient.

(** 0.2 and 0.8 as binary64 *)
Definition float_0_2 : spec_float := S754_finite false 7205759403792794 (-55).
Definition float_0_8 : spec_float := S754_finite false 7205759403792794 (-53).

(** a runtime to run the methods with *)
Definition sample_runtime : runtime := {|
  str_repr := fun s => "'" ++ s ++ "'";
  float_repr := fun _ => "0.0";
  str_hash := fun s => Z.of_nat (String.length s);
  json_loads := fun _ => Raise ValueError
|}.

Definition source_A : list (string * json) := [("url", JStr "x"); ("snippet", JStr "a")].
Definition source_B : list (string * json) := [("url", JStr "y"); ("snippet", JStr "b")].
Definition source_C : list (string * json) := [("url", JStr "x"); ("snippet", JStr "c")].

(** three documents, two metadata entries, one distance *)
Definition ragged_group : json :=
  JDict [("document", JList [JStr "a"; JStr "b"; JStr "c"]);
         ("metadata", JList [JDict [("title", JStr "T")]; JDict []]);
         ("distances", JList [JFloat float_0_2])].

(** [context] present but empty, [retrieved_docs] present *)
Definition empty_context_doc : list (string * json) :=
  [("context", JList []); ("retrieved_docs", JList [JStr "http://a"])].

(** one generic field with a source, one choice whose [message] is [null] *)
Definition null_message_doc : list (string * json) :=
  [("citations", JList [JStr "http://a"]);
   ("choices", JList [JDict [("message", JNull)]])].

(** the OpenWebUI parser and the tool-call extractor both fail inside,
    the [citations] field holds one source *)
Definition failing_parsers_doc : list (string * json) :=
  [("sources", JInt 5);
   ("citations", JList [JStr "http://a"]);
   ("choices",
    JList [JDict [("tool_calls",
                   JList [JDict [("function",
                                  JDict [("arguments", JStr "{bad")])]])]])].

Definition message_content_doc : list (string * json) :=
  [("choices", JList [JDict [("message", JDict [("content", JStr "  hello ")])]])].

Definition choice_text_doc : list (string * json) :=
  [("choices", JList [JDict [("text", JStr " hi ")]])].

Definition blank_response_doc : list (string * json) :=
  [("response", JStr "  ")].

(** a source group with one document at distance 0 *)
Definition zero_distance_group : json :=
  JDict [("document", JList [JStr "doc"]); ("distances", JList [JInt 0])].




End Samples.

(** ** The calls around the normalizer: construction, the request, display *)
Module WebUIClientApi.
Import Py WebUIClient.

(** *** [__init__] *)

(** What [self] holds once the constructor has returned; [headers] are
    the entries the constructor puts into the session headers. *)
Record client : Type := {
  api_key : string;
  base_url : string;
  collection : option string;
  model : string;
  headers : list (string * string)
}.

(** [s.rstrip("/")] *)
Fixpoint rstrip_slash (s : string) : string :=
  match s with
  | EmptyString => EmptyString
  | String c r =>
      match rstrip_slash r with
      | EmptyString => if Ascii.eqb c "/" then EmptyString
                       else String c EmptyString
      | r' => String c r'
      end
  end.

(** [os.getenv(name) or default] *)
Definition env_or (value : option string) (default : string) : string :=
  match value with
  | Some s => if s =? "" then default else s
  | None => default
  end.

(** The constructor, given the environment; [_validate_config] only logs. *)
Definition __init__ (getenv : string -> option string)
    (base_url model : string) : result client :=
  let api_key := getenv "WEBUI_API_KEY" in
  let base_url := rstrip_slash (env_or (getenv "WEBUI_API_URL") base_url) in
  let collection := getenv "COLLECTION" in
  let model := env_or (getenv "LLM_MODEL") model in
  match api_key with
  | Some key =>
      if key =? "" then Raise ValueError
      else Ok {| api_key := key; base_url := base_url;
                 collection := collection; model := model;
                 headers := [("Authorization", "Bearer " ++ key);
                             ("Content-Type", "application/json")] |}
  | None => Raise ValueError
  end.

(** *** [generate_response] *)

(** How [session.post] or [response.json()] can fail, by the [except]
    clause that catches it: [requests.exceptions.Timeout], then
    [requests.exceptions.ConnectionError], then any other exception with
    its message. *)
Inductive failure : Type :=
| Timeout
| ConnectionError
| OtherError (message : string).

(** The response of the server; [json_body] is what [response.json()]
    returns, or the message of the exception it raises. *)
Record http_response : Type := {
  status_code : Z;
  text : string;
  json_body : string + json
}.

(** The outside of one call: the transport and the three readings of
    [time.time()]. *)
Record world : Type := {
  post : string -> json -> failure + http_response;
  time_start : spec_float;
  time_done : spec_float;
  time_stamp : spec_float
}.

(** [collection or self.collection], [None] when the result is falsy *)
Definition target_collection (self : client) (collection : option string)
  : option string :=
  match collection with
  | Some c => if c =? "" then
                match WebUIClientApi.collection self with
                | Some c' => if c' =? "" then None else Some c'
                | None => None
                end
              else Some c
  | None =>
      match WebUIClientApi.collection self with
      | Some c' => if c' =? "" then None else Some c'
      | None => None
      end
  end.

Definition payload (self : client) (prompt target : string) : json :=
  JDict [("model", JStr (model self));
         ("messages", JList [JDict [("role", JStr "user");
                                    ("content", JStr prompt)]]);
         ("files", JList [JDict [("type", JStr "collection");
                                 ("id", JStr target)]])].

(** The dict returned by the three [except] clauses. *)
Definition error_result (error_msg : string) : json :=
  JDict [("content", JStr ("[ERROR: " ++ error_msg ++ "]"));
         ("sources", JList []);
         ("status", JStr "error");
         ("error", JStr error_msg)].

Section Request.
Variable rt : runtime.
(** [str(e)] for an exception raised by the interpreter *)
Variable exn_message : exn -> string.

(** The [try] block. *)
Definition generate_response_body (self : client) (w : world)
    (prompt : string) (collection : option string) : failure + json :=
  let start_time := time_start w in
  match target_collection self collection with
  | None =>
      inl (OtherError "Collection is required - provide via parameter or COLLECTION env variable")
  | Some target =>
      match post w (base_url self ++ "/api/chat/completions")
                 (payload self prompt target) with
      | inl e => inl e
      | inr response =>
          let elapsed_time := SFsub prec emax (time_done w) start_time in
          if (status_code response =? 200)%Z then
            match json_body response with
            | inl message => inl (OtherError message)
            | inr result =>
                match _extract_response rt result with
                | Raise e => inl (OtherError (exn_message e))
                | Ok extracted_data =>
                    inr (JDict [("content", JStr (content extracted_data));
                                ("sources", JList (sources extracted_data));
                                ("raw_response", raw_response extracted_data);
                                ("status", JStr "success");
                                ("response_time", JFloat elapsed_time);
                                ("model_used", JStr (model self));
                                ("collection_used", JStr target);
                                ("timestamp", JFloat (time_stamp w))])
                end
            end
          else
            let error_msg := "API request failed with status "
                             ++ str_of_int (status_code response) ++ ": "
                             ++ text response in
            inr (JDict [("content",
                         JStr ("[ERROR: API request failed - "
                               ++ str_of_int (status_code response) ++ "]"));
                        ("sources", JList []);
                        ("status", JStr "error");
                        ("error", JStr error_msg);
                        ("response_time", JFloat elapsed_time)])
      end
  end.

Definition generate_response (self : client) (w : world)
    (prompt : string) (collection : option string) : json :=
  match generate_response_body self w prompt collection with
  | inr r => r
  | inl Timeout => error_result "API request timed out"
  | inl ConnectionError => error_result ("Failed to connect to " ++ base_url self)
  | inl (OtherError message) =>
      error_result ("Response generation failed: " ++ message)
  end.

End Request.

(** *** [get_formatted_sources] *)

(** [len(v)] *)
Definition py_len (v : json) : result nat :=
  match v with
  | JStr s => Ok (String.length s)
  | JList l => Ok (List.length l)
  | JDict d => Ok (List.length d)
  | _ => Raise TypeError
  end.

(** [v[:200] + "..."]: only a string can be sliced and joined to a
    string (a list or a dict raises, the dict with [KeyError] from
    Python 3.12 on). *)
Definition truncated (v : json) : result json :=
  match v with
  | JStr s => Ok (JStr (substring 0 200 s ++ "..."))
  | _ => Raise TypeError
  end.

(** [v[:200] + "..." if len(v) > 200 else v] *)
Definition display_snippet (v : json) : result json :=
  rbind (py_len v) (fun n => if (200 <? n)%nat then truncated v else Ok v).

(** [v > 0] *)
Definition positive (v : json) : result bool :=
  match v with
  | JInt n => Ok (0 <? n)%Z
  | JBool b => Ok b
  | JFloat x => Ok (SFltb (S754_zero false) x)
  | _ => Raise TypeError
  end.

Definition newline : string := String (ascii_of_nat 10) EmptyString.

Section Display.
Variable rt : runtime.
(** the text of [f"{x:.3f}"] for a number [x] that has a finite or
    special [float] value *)
Variable fixed3 : json -> string.

(** [f"{x:.3f}"]: an [int] is converted to a [float] first, which raises
    when the [int] is beyond the range of a [float]. *)
Definition format_fixed3 (v : json) : result string :=
  match v with
  | JInt n => if float_overflows n then Raise OverflowError else Ok (fixed3 v)
  | _ => Ok (fixed3 v)
  end.

(** [if source.get(field): formatted_parts.append(render(source[field]))] *)
Definition add_part (source : json) (field : string)
    (render : json -> result string) (formatted_parts : list string)
  : result (list string) :=
  rbind (py_get source field JNull) (fun present =>
    if truthy present
    then rbind (py_getitem source field) (fun v =>
           rbind (render v) (fun s => Ok (formatted_parts ++ [s])%list))
    else Ok formatted_parts).

(** The body of the loop, up to the joined line. *)
Definition format_source (i : nat) (source : json) : result string :=
  let formatted_parts := [str_of_int (Z.of_nat i) ++ "."] in
  rbind (add_part source "title"
           (fun v => Ok ("**" ++ py_str rt v ++ "**")) formatted_parts)
  (fun formatted_parts =>
  rbind (add_part source "author"
           (fun v => Ok ("by " ++ py_str rt v)) formatted_parts)
  (fun formatted_parts =>
  rbind (add_part source "page"
           (fun v => Ok ("(" ++ py_str rt v ++ ")")) formatted_parts)
  (fun formatted_parts =>
  rbind (add_part source "url"
           (fun v => Ok (newline ++ "   " ++ py_str rt v)) formatted_parts)
  (fun formatted_parts =>
  rbind (add_part source "snippet"
           (fun v => rbind (display_snippet v) (fun snippet =>
                       Ok (newline ++ "   " ++ py_str rt snippet)))
           formatted_parts)
  (fun formatted_parts =>
  rbind (rbind (py_get source "score" (JInt 0)) positive) (fun relevant =>
  rbind (if relevant
         then rbind (py_getitem source "score") (fun v =>
                rbind (format_fixed3 v) (fun text =>
                Ok (formatted_parts
                    ++ [(newline ++ "   Relevance: " ++ text)%string])%list))
         else Ok formatted_parts)
  (fun formatted_parts => Ok (String.concat " " formatted_parts)))))))).

(** [for i, source in enumerate(sources, i): formatted_sources.append(...)] *)
Fixpoint format_from (i : nat) (sources : list json) : result (list string) :=
  match sources with
  | [] => Ok []
  | source :: rest =>
      rbind (format_source i source) (fun line =>
        rbind (format_from (S i) rest) (fun lines => Ok (line :: lines)))
  end.

Definition get_formatted_sources (sources : list json) : result (list string) :=
  format_from 1 sources.

End Display.

End WebUIClientApi.

(** ** Further closed forms and predicates *)
Module Laws.
Import Py WebUIClient Spec.

(** [l1] is [l2] with some elements removed, the order kept *)
Inductive subsequence {A : Type} : list A -> list A -> Prop :=
| subsequence_nil : subsequence [] []
| subsequence_keep x l1 l2 : subsequence l1 l2 -> subsequence (x :: l1) (x :: l2)
| subsequence_drop x l1 l2 : subsequence l1 l2 -> subsequence l1 (x :: l2).

(** a computation that only appends to the list it is given, and whose
    outcome does not depend on that list *)
Definition appends_only {A : Type} (m : M (list json) A) : Prop :=
  forall st, m st = ((st ++ fst (m []))%list, snd (m [])).

(** a computation that appends nothing but values satisfying [P] *)
Definition appends_all (P : json -> Prop) {A : Type} (m : M (list json) A)
  : Prop :=
  forall st, Forall P st -> Forall P (fst (m st)).

(** the records of the items up to the first one that raises, with what
    that one had appended *)
Fixpoint until_raise (f : json -> M (list json) unit) (items : list json)
  : list json :=
  match items with
  | [] => []
  | x :: r =>
      (fst (f x []) ++ match snd (f x []) with
                       | Ok _ => until_raise f r
                       | Raise _ => []
                       end)%list
  end.

(** The body of the loop of [_extract_sources_from_functions] over a list. *)
Definition add_call_sources (rt : runtime) (func : json) : M (list json) unit :=
  bind (lift (and_then (py_in "function" func)
                (rbind (py_getitem func "function")
                       (fun f => py_in "arguments" f))))
    (fun has_args =>
       if has_args
       then bind (lift (rbind (py_getitem func "function")
                              (fun f => py_getitem f "arguments")))
              (add_argument_sources rt)
       else ret tt).

(** an object, the only value with [get] and [keys] *)
Definition is_object (v : json) : bool :=
  match v with
  | JDict _ => true
  | _ => false
  end.

(** a number, as [score] of a record *)
Definition is_number (v : json) : bool :=
  match v with
  | JInt _ | JBool _ | JFloat _ => true
  | _ => false
  end.

(** a record as the OpenWebUI parser builds it: nine fields, a string
    snippet of at most 303 characters, a number as score *)
Definition openwebui_record (rt : runtime) (r : json) : Prop :=
  exists cid ctype md score doc,
    r = document_record rt cid ctype md score doc
    /\ is_number score = true.

(** a record as the generic parser builds it: the four fields *)
Definition generic_record (r : json) : Prop :=
  exists title url snippet score,
    r = JDict [("title", title); ("url", url); ("snippet", snippet);
               ("score", score)]
    \/ r = JDict [("url", url); ("title", title); ("snippet", snippet);
                  ("score", score)].

(** the document has none of the keys the scanner looks at *)
Definition no_source_keys (d : list (string * json)) : bool :=
  negb (existsb (has_key d)
          ("sources" :: "choices" :: "context" :: "retrieved_docs"
           :: source_fields)).

(** [choices] is absent or falsy: the first branch of the extractor is
    not taken *)
Definition no_choices (d : list (string * json)) : bool :=
  match dict_get d "choices" with
  | Some v => negb (truthy v)
  | None => true
  end.

(** [n] slashes *)
Fixpoint slashes (n : nat) : string :=
  match n with
  | O => EmptyString
  | S n' => String "/" (slashes n')
  end.

(** the keys of the sources whose key the deduplicator can compute *)
Definition computed_keys (rt : runtime) (l : list json) : list string :=
  flat_map (fun x => match dedup_key rt x with
                     | Ok key => [key]
                     | Raise _ => []
                     end) l.

(** the score of the record can be displayed: it is not a positive
    [int] beyond the range of a [float] *)
Definition score_displayable (r : json) : bool :=
  match py_getitem r "score" with
  | Ok (JInt n) => negb ((0 <? n)%Z && float_overflows n)
  | _ => true
  end.

(** [parts'] is [parts] with more parts after it *)
Definition extends (parts parts' : list string) : Prop :=
  exists more, parts' = (parts ++ more)%list.

(** the content of the result when the branches extracted [c] from the
    object [d] *)
Definition shown_content (rt : runtime) (d : list (string * json))
    (c : string) : string :=
  if c =? "" then py_str rt (JDict d) else c.

End Laws.

(** ** More sample values *)
Module MoreSamples.
Import Py WebUIClient.

Definition tool_call_with (url : string) : json :=
  JDict [("function",
          JDict [("arguments", JDict [("sources", JList [JStr url])])])].

(** a choice with both a [function_call] and [tool_calls] *)
Definition both_calls_choice : list (string * json) :=
  [("function_call",
    JDict [("arguments", JDict [("sources", JList [JStr "http://f"])])]);
   ("tool_calls", JList [tool_call_with "http://t"])].

(** a choice whose [function_call] is [null] *)
Definition null_call_choice : list (string * json) :=
  [("function_call", JNull);
   ("tool_calls", JList [tool_call_with "http://t"])].

(** the first choice's message has a [null] content, the choice a [text] *)
Definition null_content_doc : list (string * json) :=
  [("choices",
    JList [JDict [("message", JDict [("content", JNull)]);
                  ("text", JStr "hi")]])].

Definition response_and_content_doc : list (string * json) :=
  [("content", JStr "from content"); ("response", JStr " from response ")].

(** a choice without message and text, beside a top-level [response] *)
Definition shadowed_response_doc : list (string * json) :=
  [("choices", JList [JDict [("index", JInt 0)]]);
   ("response", JStr "the answer")].

(** a source group whose [source] is a string: [get] fails on it *)
Definition bad_source_group : json :=
  JDict [("source", JStr "library"); ("document", JList [JStr "doc"])].

(** an item the generic parser admits, with a number as snippet *)
Definition numeric_snippet_item : list (string * json) :=
  [("url", JStr "http://a"); ("snippet", JInt 5)].

Definition sample_client : WebUIClientApi.client := {|
  WebUIClientApi.api_key := "k";
  WebUIClientApi.base_url := "http://localhost";
  WebUIClientApi.collection := Some "docs";
  WebUIClientApi.model := "gemma3:4b";
  WebUIClientApi.headers := [("Authorization", "Bearer k");
                             ("Content-Type", "application/json")]
|}.

Definition sample_exn_message (e : exn) : string := "error".

Definition sample_fixed3 (v : json) : string := "0.000".

(** a server that answers every request with status 200 and [body] *)
Definition answering (body : json) : WebUIClientApi.world := {|
  WebUIClientApi.post := fun _ _ =>
    inr {| WebUIClientApi.status_code := 200;
           WebUIClientApi.text := "";
           WebUIClientApi.json_body := inr body |};
  WebUIClientApi.time_start := S754_zero false;
  WebUIClientApi.time_done := S754_zero false;
  WebUIClientApi.time_stamp := S754_zero false
|}.

(** a transport that fails with [e] *)
Definition failing (e : WebUIClientApi.failure) : WebUIClientApi.world := {|
  WebUIClientApi.post := fun _ _ => inl e;
  WebUIClientApi.time_start := S754_zero false;
  WebUIClientApi.time_done := S754_zero false;
  WebUIClientApi.time_stamp := S754_zero false
|}.

(** a server that answers every request with status [code] and a body
    [body] that is not JSON *)
Definition answering_text (code : Z) (body : string) : WebUIClientApi.world := {|
  WebUIClientApi.post := fun _ _ =>
    inr {| WebUIClientApi.status_code := code;
           WebUIClientApi.text := body;
           WebUIClientApi.json_body := inl "Expecting value" |};
  WebUIClientApi.time_start := S754_zero false;
  WebUIClientApi.time_done := S754_zero false;
  WebUIClientApi.time_stamp := S754_zero false
|}.

(** a source group with one document at distance -(2^1024), whose score
    2^1024 + 1 is beyond the range of a [float] *)
Definition overflowing_group : json :=
  JDict [("document", JList [JStr "doc"]);
         ("distances", JList [JInt (- (2 ^ 1024))])].

(** an environment with a key and a base URL ending in slashes *)
Definition sample_getenv (name : string) : option string :=
  if name =? "WEBUI_API_KEY" then Some "k"
  else if name =? "WEBUI_API_URL" then Some "http://host//"
  else None.

End MoreSamples.

(** ** Properties *)
Import Py WebUIClient Spec Samples.
Local Open Scope py_scope.

(** *** The monad *)

Lemma bind_Ok {St A B : Type} (m : M St A) (k : A -> M St B) st st' a :
  m st = (st', Ok a) -> bind m k st = k a st'.
Proof. intros H. unfold bind. rewrite H. reflexivity. Qed.

Lemma bind_lift_Ok {St A B : Type} (a : A) (k : A -> M St B) st :
  bind (lift (Ok a)) k st = k a st.
Proof. reflexivity. Qed.

Lemma bind_assoc {St A B C : Type} (m : M St A) (k : A -> M St B)
    (k' : B -> M St C) st :
  bind (bind m k) k' st = bind m (fun a => bind (k a) k') st.
Proof. unfold bind. destruct (m st) as [st' [a|e]]; reflexivity. Qed.

(** One step of a computation whose next statement has returned. *)
Ltac mstep :=
  match goal with
  | |- context [@bind ?St ?B ?C (@bind ?St ?A ?B ?m ?k) ?k' ?st] =>
      rewrite (@bind_assoc St A B C m k k' st)
  | |- context [bind (lift (Ok ?a)) ?k ?st] =>
      change (bind (lift (Ok a)) k st) with (k a st); cbv beta iota
  | |- context [bind (ret ?a) ?k ?st] =>
      change (bind (ret a) k st) with (k a st); cbv beta iota
  | |- context [bind (extend ?l) ?k ?st] =>
      change (bind (extend l) k st) with (k tt (st ++ l)%list); cbv beta iota
  end.

(** A loop whose body always appends [g x] appends them all. *)
Lemma for_each_extends_in {A : Type} (g : A -> list json)
    (f : A -> M (list json) unit) (l : list A) :
  (forall x, In x l -> forall st, f x st = ((st ++ g x)%list, Ok tt)) ->
  forall st, for_each l f st = ((st ++ flat_map g l)%list, Ok tt).
Proof.
  unfold for_each. generalize 0.
  induction l as [|x r IH]; intros i0 Hf st; simpl.
  - unfold ret. now rewrite app_nil_r.
  - erewrite bind_Ok by (apply Hf; now left).
    rewrite IH by (intros y Hy; apply Hf; now right).
    now rewrite <- app_assoc.
Qed.

Lemma for_each_extends {A : Type} (g : A -> list json)
    (f : A -> M (list json) unit) :
  (forall x st, f x st = ((st ++ g x)%list, Ok tt)) ->
  forall l st, for_each l f st = ((st ++ flat_map g l)%list, Ok tt).
Proof. intros Hf l. apply for_each_extends_in. intros x _. apply Hf. Qed.

(** *** No [IndexError] *)

Lemma nie_ret {St A : Type} (a : A) : never_index_error (@ret St A a).
Proof. intros st. reflexivity. Qed.

Lemma nie_lift {St A : Type} (r : result A) :
  is_index_error r = false -> never_index_error (@lift St A r).
Proof. intros H st. exact H. Qed.

Lemma nie_bind {St A B : Type} (m : M St A) (k : A -> M St B) :
  never_index_error m -> (forall a, never_index_error (k a)) ->
  never_index_error (bind m k).
Proof.
  intros Hm Hk st. unfold bind. specialize (Hm st).
  destruct (m st) as [st' [a|e]]; simpl in *; [apply Hk | exact Hm].
Qed.

Lemma nie_for_enumerate {St A : Type} (f : nat -> A -> M St unit) :
  (forall i x, never_index_error (f i x)) ->
  forall l i0, never_index_error (for_enumerate i0 l f).
Proof.
  intros Hf l. induction l as [|x r IH]; intros i0; simpl.
  - apply nie_ret.
  - apply nie_bind; [apply Hf | intros _; apply IH].
Qed.

Lemma nie_append x : never_index_error (append x).
Proof. intros st. reflexivity. Qed.

Lemma rie_rbind {A B : Type} (r : result A) (k : A -> result B) :
  is_index_error r = false -> (forall a, is_index_error (k a) = false) ->
  is_index_error (rbind r k) = false.
Proof. destruct r as [a|e]; simpl; auto. Qed.

Lemma rie_py_get c k d : is_index_error (py_get c k d) = false.
Proof. destruct c; reflexivity. Qed.

Lemma rie_py_getitem c k : is_index_error (py_getitem c k) = false.
Proof. destruct c; try reflexivity. simpl. now destruct (dict_get d k). Qed.

Lemma rie_py_or a b :
  is_index_error a = false -> is_index_error b = false ->
  is_index_error (py_or a b) = false.
Proof.
  intros Ha Hb. unfold py_or. apply rie_rbind; [exact Ha|].
  intros x. now destruct (truthy x).
Qed.

Lemma rie_py_iter c : is_index_error (py_iter c) = false.
Proof. destruct c; reflexivity. Qed.

Lemma rie_one_minus d : is_index_error (one_minus d) = false.
Proof. destruct d; reflexivity. Qed.

Lemma rie_score_of d : is_index_error (score_of d) = false.
Proof. unfold score_of. destruct (truthy d); [apply rie_one_minus | reflexivity]. Qed.

Create HintDb nie.
#[local] Hint Resolve rie_py_get rie_py_getitem rie_py_or rie_py_iter
  rie_score_of nie_ret nie_append : nie.

(** *** Pairing a document with its metadata and distance *)

Lemma list_index_nth (l : list json) (i : nat) (default : json) :
  (if (i <? length l)%nat then list_index l i else Ok default)
  = Ok (nth i l default).
Proof.
  destruct (Nat.ltb_spec i (length l)) as [Hlt|Hge].
  - unfold list_index. now rewrite (nth_error_nth' l default Hlt).
  - now rewrite nth_overflow.
Qed.

Lemma metadata_at_nth metadata_list i :
  metadata_at metadata_list i = Ok (nth i metadata_list (JDict [])).
Proof. apply list_index_nth. Qed.

Lemma distance_at_nth distances i :
  distance_at distances i = Ok (nth i distances (JInt 0)).
Proof. apply list_index_nth. Qed.

Lemma nie_add_document rt cid ctype ml ds i doc :
  never_index_error (add_document rt cid ctype ml ds i doc).
Proof.
  unfold add_document. rewrite metadata_at_nth, distance_at_nth.
  repeat (first [ apply nie_bind; [apply nie_lift|intros ?]
                | apply rie_py_or
                | apply rie_py_get
                | apply rie_py_getitem
                | apply rie_score_of
                | reflexivity ]).
  - match goal with |- context [truthy ?x] => destruct (truthy x) end;
      [|reflexivity].
    apply rie_rbind; [apply rie_py_get | reflexivity].
  - match goal with |- context [truthy ?x] => destruct (truthy x) end;
      auto with nie.
Qed.

Lemma nie_add_source_item rt item : never_index_error (add_source_item rt item).
Proof.
  destruct item; simpl; try apply nie_ret.
  repeat (apply nie_bind; [apply nie_lift|intros ?]);
    try reflexivity;
    try (match goal with |- context [truthy ?x] => destruct (truthy x) end;
         auto with nie).
  apply nie_for_enumerate. intros. apply nie_add_document.
Qed.

Lemma nie_parse_openwebui_sources_body rt sources_data :
  never_index_error (parse_openwebui_sources_body rt sources_data).
Proof.
  unfold parse_openwebui_sources_body.
  apply nie_bind; [apply nie_lift, rie_py_iter|].
  intros items. apply nie_for_enumerate. intros _ x. apply nie_add_source_item.
Qed.

(** *** Content extraction never raises *)

(** C1. For every input document, [_extract_response] returns a result and
    never raises: either the [try] block returned and that is the result,
    or it raised and the result has the fixed error content
    "[ERROR: Failed to parse API response]", an empty sources list and the
    raw document attached. *)
Theorem extract_response_never_raises (rt : runtime) (response_data : json) :
  (exists r, extract_response_body rt response_data = Ok r
             /\ _extract_response rt response_data = Ok r)
  \/ (exists e, extract_response_body rt response_data = Raise e
                /\ _extract_response rt response_data
                   = Ok {| content := "[ERROR: Failed to parse API response]";
                           sources := [];
                           raw_response := response_data |}).
Proof.
  unfold _extract_response, try_except.
  destruct (extract_response_body rt response_data) as [r|e].
  - left. exists r. split; reflexivity.
  - right. exists e. split; reflexivity.
Qed.

(** A document that is a number: the first membership test raises. *)
Example extract_response_of_number (rt : runtime) :
  _extract_response rt (JInt 5)
  = Ok {| content := error_content; sources := []; raw_response := JInt 5 |}.
Proof. reflexivity. Qed.

(** A document that is a list: the scanner fails, its handler fails on
    [keys()], and the outer handler still answers. *)
Example extract_response_of_list (rt : runtime) :
  _extract_sources rt (JList [JStr "sources"]) = Raise AttributeError
  /\ _extract_response rt (JList [JStr "sources"])
     = Ok {| content := error_content; sources := [];
             raw_response := JList [JStr "sources"] |}.
Proof. split; reflexivity. Qed.

(** *** Ragged arrays *)

(** C5. Pairing document index [i] with metadata and distance never indexes
    out of bounds, whatever the lengths of the lists: the metadata is
    [metadata_list[i]], or the empty object when [i] is beyond the list;
    the distance is [distances[i]], or 0 when [i] is beyond the list; and
    the body of the OpenWebUI parser never ends in [IndexError] on any
    input. *)
Theorem openwebui_pairing_in_bounds (rt : runtime) (sources_data : json)
    (metadata_list distances : list json) (i : nat) :
  metadata_at metadata_list i = Ok (nth i metadata_list (JDict []))
  /\ distance_at distances i = Ok (nth i distances (JInt 0))
  /\ (length metadata_list <= i -> metadata_at metadata_list i = Ok (JDict []))
  /\ (length distances <= i -> distance_at distances i = Ok (JInt 0))
  /\ is_index_error (snd (parse_openwebui_sources_body rt sources_data []))
     = false.
Proof.
  split; [apply metadata_at_nth|].
  split; [apply distance_at_nth|].
  split; [intros H; rewrite metadata_at_nth; now rewrite nth_overflow|].
  split; [intros H; rewrite distance_at_nth; now rewrite nth_overflow|].
  apply nie_parse_openwebui_sources_body.
Qed.

Lemma openwebui_pairing_in_bounds_witness :
  metadata_at [JDict [("title", JStr "T")]; JDict []] 2 = Ok (JDict [])
  /\ distance_at [JFloat float_0_2] 1 = Ok (JInt 0).
Proof.
  split.
  - apply (proj1 (proj2 (proj2 (openwebui_pairing_in_bounds sample_runtime
                                  (JList [ragged_group])
                                  [JDict [("title", JStr "T")]; JDict []]
                                  [JFloat float_0_2] 2)))).
    simpl. lia.
  - apply (proj1 (proj2 (proj2 (proj2 (openwebui_pairing_in_bounds
                                         sample_runtime (JList [ragged_group])
                                         [] [JFloat float_0_2] 1))))).
    simpl. lia.
Defined.

(** Three documents, two metadata entries, one distance: three records,
    the third with metadata [{}], the last two with score 0. *)
Example ragged_group_parsed (rt : runtime) :
  _parse_openwebui_sources rt (JList [ragged_group])
  = [document_record rt (JStr "") (JStr "") [("title", JStr "T")]
       (JFloat float_0_8) (JStr "a");
     document_record rt (JStr "") (JStr "") [] (JInt 0) (JStr "b");
     document_record rt (JStr "") (JStr "") [] (JInt 0) (JStr "c")].
Proof. reflexivity. Qed.

(** *** Closed forms of the dict literals *)

Lemma py_get_dict d k default : py_get (JDict d) k default = Ok (dget d k default).
Proof. reflexivity. Qed.

Lemma py_or_Ok a b : py_or (Ok a) (Ok b) = Ok (or_val a b).
Proof. unfold py_or, or_val. simpl. now destruct (truthy a). Qed.

Lemma truthy_or_val a b : truthy (or_val a b) = truthy a || truthy b.
Proof. unfold or_val. destruct (truthy a) eqn:E; simpl; auto. Qed.

Lemma object_source_dict d : object_source (JDict d) = Ok (object_record d).
Proof.
  unfold object_source. rewrite !py_get_dict, !py_or_Ok. reflexivity.
Qed.

Lemma add_object_source_dict d st :
  add_object_source (JDict d) st = ((st ++ object_sources d)%list, Ok tt).
Proof.
  unfold add_object_source. rewrite object_source_dict.
  rewrite bind_lift_Ok. unfold object_record at 1 2. cbn [py_getitem dict_get].
  simpl String.eqb. cbv iota. rewrite py_or_Ok, bind_lift_Ok.
  rewrite truthy_or_val. unfold object_sources.
  destruct (truthy (object_url d) || truthy (dget d "title" (JStr ""))).
  - reflexivity.
  - unfold ret. now rewrite app_nil_r.
Qed.

Lemma parse_source_field_spec v :
  _parse_source_field v
  = match v with
    | JList items => flat_map item_sources items
    | JDict d => object_sources d
    | JStr s => if startswith s "http" || startswith s "www"
                then [url_source v] else []
    | _ => []
    end.
Proof.
  unfold _parse_source_field, collected.
  destruct v as [|b|n|x|s|items|d]; simpl.
  - reflexivity.
  - now destruct b.
  - now destruct (n =? 0)%Z.
  - now destruct (float_is_zero x).
  - destruct s as [|c s]; [reflexivity|]. cbn [String.eqb negb].
    now destruct (startswith (String c s) "http" || startswith (String c s) "www").
  - destruct items as [|item items]; [reflexivity|]. cbn [negb].
    rewrite (for_each_extends item_sources); [reflexivity|].
    intros x st. destruct x; simpl; unfold ret, append;
      rewrite ?app_nil_r; try reflexivity.
    apply add_object_source_dict.
  - destruct d as [|kv d]; [reflexivity|]. cbn [negb].
    now rewrite add_object_source_dict.
Qed.

Lemma snippet_nonempty rt s : s <> "" -> (snippet_of rt (JStr s) =? "") = false.
Proof.
  intros Hs. unfold snippet_of. simpl.
  destruct (300 <? String.length s)%nat.
  - destruct (substring 0 300 s); reflexivity.
  - destruct s; [congruence | reflexivity].
Qed.

Lemma add_document_object rt cid ctype ml ds i doc md score st :
  nth i ml (JDict []) = JDict md ->
  score_of (nth i ds (JInt 0)) = Ok score ->
  add_document rt cid ctype ml ds i doc st
  = ((st ++ if document_kept rt md doc
            then [document_record rt cid ctype md score doc] else [])%list,
     Ok tt).
Proof.
  intros Hmd Hscore. unfold add_document.
  rewrite metadata_at_nth, distance_at_nth, Hmd.
  rewrite !bind_lift_Ok. cbv beta. rewrite Hscore.
  rewrite !py_get_dict, !py_or_Ok. rewrite !bind_lift_Ok. cbv beta.
  assert (Hpage : (if truthy (dget md "page" JNull)
                   then rbind (Ok (dget md "page" (JStr "")))
                          (fun p => Ok (JStr ("Page " ++ py_str rt p)))
                   else Ok (JStr "")) = Ok (document_page rt md)).
  { unfold document_page. now destruct (truthy (dget md "page" JNull)). }
  rewrite Hpage, !bind_lift_Ok. cbv beta.
  cbn [py_getitem dict_get]. simpl String.eqb. cbv iota.
  rewrite !py_or_Ok, bind_lift_Ok. cbv beta.
  assert (Hkept : truthy (or_val (or_val (document_title md)
                                         (JStr (snippet_of rt doc)))
                                 (document_url md))
                  = document_kept rt md doc).
  { unfold document_kept. now rewrite !truthy_or_val. }
  fold (document_title md) (document_url md). rewrite Hkept.
  destruct (document_kept rt md doc).
  - reflexivity.
  - unfold ret. now rewrite app_nil_r.
Qed.

Lemma snippet_only_document rt s :
  (s =? "") = false ->
  _parse_openwebui_sources rt (JList [JDict [("document", JList [JStr s])]])
  = [document_record rt (JStr "") (JStr "") [] (JInt 0) (JStr s)].
Proof.
  intros Hs.
  assert (Hs' : s <> "") by (intros ->; discriminate).
  unfold _parse_openwebui_sources, collected, parse_openwebui_sources_body.
  cbn [py_iter]. mstep. unfold for_each. cbn [for_enumerate].
  unfold add_source_item. rewrite !py_get_dict.
  change (dget [("document", JList [JStr s])] "source" (JDict []))
    with (JDict []).
  change (dget [("document", JList [JStr s])] "document" (JList []))
    with (JList [JStr s]).
  change (dget [("document", JList [JStr s])] "metadata" (JList []))
    with (JList []).
  change (dget [("document", JList [JStr s])] "distances" (JList []))
    with (JList []).
  repeat (mstep; cbn [truthy]). cbn [as_list for_enumerate]. repeat mstep.
  erewrite bind_Ok by (apply add_document_object; reflexivity).
  unfold document_kept. rewrite (snippet_nonempty rt s Hs').
  reflexivity.
Qed.

(** *** Scores *)

(** C6. The code departs from the conversion its comment names
    ("Convert distance to similarity score") at a distance of 0: the
    distance is present and the score is 0, where 1 - 0 = 1.  The guard
    [if distance] tests the truth value of the distance, not its presence. *)
Lemma score_of_zero_distance :
  nth_error [JInt 0] 0 = Some (JInt 0)
  /\ one_minus (JInt 0) = Ok (JInt 1)
  /\ score_of (JInt 0) = Ok (JInt 0)
  /\ score_of (JInt 0) <> one_minus (JInt 0)
  /\ (forall rt,
        _parse_openwebui_sources rt (JList [zero_distance_group])
        = [document_record rt (JStr "") (JStr "") [] (JInt 0) (JStr "doc")]).
Proof.
  repeat split; try reflexivity. discriminate.
Qed.

(** A distance that is present but falsy (0, 0.0, null, false, empty)
    takes the [else] branch like a missing one. *)
Lemma falsy_distance_scores_zero rt cid ctype ml ds i doc md st d :
  nth i ml (JDict []) = JDict md ->
  nth_error ds i = Some d -> truthy d = false ->
  add_document rt cid ctype ml ds i doc st
  = ((st ++ if document_kept rt md doc
            then [document_record rt cid ctype md (JInt 0) doc]
            else [])%list,
     Ok tt).
Proof.
  intros Hmd Hd Ht. apply add_document_object; [exact Hmd|].
  rewrite (nth_error_nth _ _ _ Hd). unfold score_of. now rewrite Ht.
Qed.

(** Away from a falsy distance the score is the converted distance: for
    a document whose metadata is an object, when the paired distance [d]
    is present and truthy the record's score is [1 - d], and 0.2 gives
    0.8; when no distance is present the score is 0. *)
Theorem score_from_distance (rt : runtime) (cid ctype : json)
    (ml ds : list json) (i : nat) (doc : json) (md : list (string * json))
    (st : list json) :
  nth i ml (JDict []) = JDict md ->
  (forall d score,
      nth_error ds i = Some d -> truthy d = true -> one_minus d = Ok score ->
      add_document rt cid ctype ml ds i doc st
      = ((st ++ if document_kept rt md doc
                then [document_record rt cid ctype md score doc] else [])%list,
         Ok tt))
  /\ (nth_error ds i = None ->
      add_document rt cid ctype ml ds i doc st
      = ((st ++ if document_kept rt md doc
                then [document_record rt cid ctype md (JInt 0) doc]
                else [])%list,
         Ok tt))
  /\ (forall score,
        py_getitem (document_record rt cid ctype md score doc) "score"
        = Ok score)
  /\ one_minus (JFloat float_0_2) = Ok (JFloat float_0_8).
Proof.
  intros Hmd. split; [|split; [|split]].
  - intros d score Hd Ht Hs. apply add_document_object; [exact Hmd|].
    rewrite (nth_error_nth _ _ _ Hd). unfold score_of. now rewrite Ht.
  - intros Hnone. apply add_document_object; [exact Hmd|].
    apply nth_error_None in Hnone. now rewrite nth_overflow.
  - reflexivity.
  - reflexivity.
Qed.

Lemma score_from_distance_witness :
  add_document sample_runtime (JStr "") (JStr "") [] [JFloat float_0_2] 0
    (JStr "doc") []
  = ([document_record sample_runtime (JStr "") (JStr "") []
        (JFloat float_0_8) (JStr "doc")], Ok tt)
  /\ add_document sample_runtime (JStr "") (JStr "") [] [] 0 (JStr "doc") []
     = ([document_record sample_runtime (JStr "") (JStr "") []
           (JInt 0) (JStr "doc")], Ok tt).
Proof.
  split.
  - exact (proj1 (score_from_distance sample_runtime (JStr "") (JStr "") []
                    [JFloat float_0_2] 0 (JStr "doc") [] [] eq_refl)
             (JFloat float_0_2) (JFloat float_0_8) eq_refl eq_refl eq_refl).
  - exact (proj1 (proj2 (score_from_distance sample_runtime (JStr "")
                           (JStr "") [] [] 0 (JStr "doc") [] [] eq_refl))
             eq_refl).
Defined.

(** *** Admission rules *)

(** C8. The generic parser keeps an object-shaped record only if its
    resolved url or its title is non-empty, alone or as an element of a
    list, so a record with only a snippet is dropped; the OpenWebUI parser
    keeps a document when its title, its snippet or its url is non-empty,
    so a document whose only non-empty field is its snippet text is kept. *)
Theorem admission_rules (rt : runtime) :
  (forall d,
      _parse_source_field (JDict d)
      = if truthy (object_url d) || truthy (dget d "title" (JStr ""))
        then [object_record d] else [])
  /\ (forall items d,
        _parse_source_field (JList items) = flat_map item_sources items
        /\ item_sources (JDict d) = _parse_source_field (JDict d))
  /\ (forall snippet,
        _parse_source_field (JDict [("snippet", snippet)]) = []
        /\ _parse_source_field (JList [JDict [("snippet", snippet)]]) = [])
  /\ (forall cid ctype ml ds i doc md score st,
        nth i ml (JDict []) = JDict md ->
        score_of (nth i ds (JInt 0)) = Ok score ->
        add_document rt cid ctype ml ds i doc st
        = ((st ++ if truthy (document_title md)
                     || negb (snippet_of rt doc =? "")
                     || truthy (document_url md)
                  then [document_record rt cid ctype md score doc]
                  else [])%list,
           Ok tt))
  /\ (forall s,
        (s =? "") = false ->
        _parse_openwebui_sources rt
          (JList [JDict [("document", JList [JStr s])]])
        = [document_record rt (JStr "") (JStr "") [] (JInt 0) (JStr s)]).
Proof.
  split; [|split; [|split; [|split]]].
  - intros d. now rewrite parse_source_field_spec.
  - intros items d. now rewrite !parse_source_field_spec.
  - intros snippet. now rewrite !parse_source_field_spec.
  - intros. now apply add_document_object.
  - intros s Hs. now apply snippet_only_document.
Qed.

Lemma admission_rules_witness :
  add_document sample_runtime (JStr "c1") (JStr "") [JDict []] [] 0
    (JStr "only text") []
  = ([document_record sample_runtime (JStr "c1") (JStr "") [] (JInt 0)
        (JStr "only text")], Ok tt)
  /\ _parse_openwebui_sources sample_runtime
       (JList [JDict [("document", JList [JStr "only text"])]])
     = [document_record sample_runtime (JStr "") (JStr "") [] (JInt 0)
          (JStr "only text")].
Proof.
  split.
  - exact (proj1 (proj2 (proj2 (proj2 (admission_rules sample_runtime))))
             (JStr "c1") (JStr "") [JDict []] [] 0 (JStr "only text") []
             (JInt 0) [] eq_refl eq_refl).
  - exact (proj2 (proj2 (proj2 (proj2 (admission_rules sample_runtime))))
             "only text" eq_refl).
Defined.

(** *** [context] and [retrieved_docs] *)

(** C9, as stated, fails: both fields are present, [context] is an empty
    list, and [retrieved_docs] is the value handed to the generic parser;
    its source is returned. *)
Lemma empty_context_yields_retrieved_docs :
  dict_get empty_context_doc "context" = Some (JList [])
  /\ dict_get empty_context_doc "retrieved_docs" = Some (JList [JStr "http://a"])
  /\ context_data (JDict empty_context_doc) = Ok (JList [JStr "http://a"])
  /\ context_data (JDict empty_context_doc) <> Ok (JList [])
  /\ _parse_source_field (JList []) = []
  /\ (forall rt,
        _extract_sources rt (JDict empty_context_doc)
        = Ok [url_source (JStr "http://a")]).
Proof.
  repeat split; try reflexivity. discriminate.
Qed.

(** C9, amended. The first present and non-empty (truthy) field wins: when
    [context] is present and truthy it is the value handed to the generic
    parser; [retrieved_docs] is consulted when [context] is absent or
    falsy (null, false, 0, an empty string, list or object). *)
Theorem context_first_truthy (d : list (string * json)) :
  (forall c, dict_get d "context" = Some c -> truthy c = true ->
             context_data (JDict d) = Ok c)
  /\ (forall c, dict_get d "context" = Some c -> truthy c = false ->
                context_data (JDict d) = Ok (dget d "retrieved_docs" JNull))
  /\ (dict_get d "context" = None ->
      context_data (JDict d) = Ok (dget d "retrieved_docs" JNull)).
Proof.
  unfold context_data. rewrite !py_get_dict, py_or_Ok. unfold or_val, dget.
  repeat split.
  - intros c Hc Ht. now rewrite Hc, Ht.
  - intros c Hc Ht. now rewrite Hc, Ht.
  - intros Hc. now rewrite Hc.
Qed.

Lemma context_first_truthy_witness :
  context_data (JDict [("context", JList [JStr "http://c"]);
                       ("retrieved_docs", JList [JStr "http://a"])])
  = Ok (JList [JStr "http://c"])
  /\ context_data (JDict empty_context_doc) = Ok (JList [JStr "http://a"])
  /\ context_data (JDict [("retrieved_docs", JList [JStr "http://a"])])
     = Ok (JList [JStr "http://a"]).
Proof.
  split; [|split].
  - exact (proj1 (context_first_truthy
                    [("context", JList [JStr "http://c"]);
                     ("retrieved_docs", JList [JStr "http://a"])])
             (JList [JStr "http://c"]) eq_refl eq_refl).
  - exact (proj1 (proj2 (context_first_truthy empty_context_doc))
             (JList []) eq_refl eq_refl).
  - exact (proj2 (proj2 (context_first_truthy
                           [("retrieved_docs", JList [JStr "http://a"])]))
             eq_refl).
Defined.

(** *** Deduplication *)

Lemma deduplicate_from rt l :
  forall seen unique,
    snd (fold_left (dedup_step rt) l (seen, unique))
    = (unique ++ dedup_from rt seen l)%list.
Proof.
  induction l as [|x r IH]; intros seen unique; simpl.
  - now rewrite app_nil_r.
  - destruct (dedup_key rt x) as [key|e].
    + destruct (negb (key =? "") && negb (seen_mem key seen)).
      * rewrite IH, <- app_assoc. reflexivity.
      * apply IH.
    + rewrite IH, <- app_assoc. reflexivity.
Qed.

Lemma deduplicate_sources_from rt l :
  _deduplicate_sources rt l = dedup_from rt [] l.
Proof. unfold _deduplicate_sources. now rewrite deduplicate_from. Qed.

Lemma exceeds_limit_dict d :
  exceeds_limit (JDict d) = existsb (fun kv => exceeds_limit (snd kv)) d.
Proof.
  change (exceeds_limit (JDict d))
    with (existsb (fun kv : string * json => let '(_, x) := kv in exceeds_limit x) d).
  induction d as [|[k x] r IH]; [reflexivity|].
  cbn [existsb snd]. now rewrite IH.
Qed.

Lemma within_limit_field d field v :
  within_limit d = true -> dict_get d field = Some v -> exceeds_limit v = false.
Proof.
  unfold within_limit. rewrite exceeds_limit_dict, negb_true_iff.
  induction d as [|[k x] r IH]; [discriminate|].
  cbn [existsb snd dict_get]. intros H. apply orb_false_iff in H.
  destruct H as [Hx Hr]. destruct (k =? field).
  - now intros [= <-].
  - now apply IH.
Qed.

Lemma add_key_part_dict rt d field label parts :
  within_limit d = true ->
  add_key_part rt (JDict d) field label parts
  = Ok (parts ++ key_component rt d field label)%list.
Proof.
  intros Hd. unfold add_key_part, key_component. simpl.
  destruct (dict_get d field) as [v|] eqn:Hv; simpl.
  - destruct (truthy v); [|now rewrite app_nil_r].
    unfold str_checked. now rewrite (within_limit_field d field v Hd Hv).
  - now rewrite app_nil_r.
Qed.

Lemma add_key_part_Ok rt d field label parts parts' :
  add_key_part rt (JDict d) field label parts = Ok parts' ->
  parts' = (parts ++ key_component rt d field label)%list.
Proof.
  unfold add_key_part, key_component. simpl.
  destruct (dict_get d field) as [v|]; simpl.
  - destruct (truthy v).
    + unfold str_checked. destruct (exceeds_limit v); [discriminate|].
      now intros [= <-].
    + intros [= <-]. now rewrite app_nil_r.
  - intros [= <-]. now rewrite app_nil_r.
Qed.

Lemma key_components_fields rt d :
  key_components rt d
  = (key_component rt d "url" "url"
     ++ key_component rt d "title" "title"
     ++ key_component rt d "collection_id" "collection"
     ++ key_component rt d "page" "page")%list.
Proof.
  unfold key_components. cbn [flat_map key_fields fst snd].
  now rewrite app_nil_r.
Qed.

Lemma dedup_key_dict rt d :
  within_limit d = true -> dedup_key rt (JDict d) = Ok (record_key rt d).
Proof.
  intros Hd. unfold dedup_key.
  repeat (rewrite (add_key_part_dict rt d _ _ _ Hd); cbn [rbind]).
  unfold record_key. rewrite key_components_fields, <- !app_assoc. cbn [app].
  destruct (_ ++ _)%list; [|reflexivity].
  unfold str_checked. unfold within_limit in Hd.
  apply negb_true_iff in Hd. now rewrite Hd.
Qed.

Lemma dedup_key_Ok_dict rt x key :
  dedup_key rt x = Ok key -> exists d, x = JDict d /\ key = record_key rt d.
Proof.
  destruct x as [| | | | | |d]; try discriminate.
  intros H. exists d. split; [reflexivity|]. revert H. unfold dedup_key.
  destruct (add_key_part rt (JDict d) "url" "url" []) as [p1|] eqn:H1;
    [|discriminate].
  apply add_key_part_Ok in H1. cbn [rbind].
  destruct (add_key_part rt (JDict d) "title" "title" p1) as [p2|] eqn:H2;
    [|discriminate].
  apply add_key_part_Ok in H2. cbn [rbind].
  destruct (add_key_part rt (JDict d) "collection_id" "collection" p2)
    as [p3|] eqn:H3; [|discriminate].
  apply add_key_part_Ok in H3. cbn [rbind].
  destruct (add_key_part rt (JDict d) "page" "page" p3) as [p4|] eqn:H4;
    [|discriminate].
  apply add_key_part_Ok in H4. cbn [rbind].
  assert (Hp : p4 = key_components rt d).
  { rewrite key_components_fields. subst. now rewrite <- !app_assoc. }
  unfold record_key. rewrite <- Hp. destruct p4.
  - unfold str_checked. destruct (exceeds_limit (JDict d)); [discriminate|].
    now intros [= <-].
  - now intros [= <-].
Qed.

Lemma str_of_int_nonempty n : str_of_int n <> "".
Proof.
  unfold str_of_int.
  destruct (Z.to_int n) as [u|u]; simpl; [|discriminate].
  destruct u; simpl; discriminate.
Qed.

Lemma key_component_nonempty rt d field label p :
  label <> "" -> In p (key_component rt d field label) -> p <> "".
Proof.
  intros Hl. unfold key_component.
  destruct (dict_get d field) as [v|]; [|intros []].
  destruct (truthy v); [|intros []].
  intros [<-|[]]. destruct label; [congruence | discriminate].
Qed.

Lemma concat_nonempty sep p ps : p <> "" -> String.concat sep (p :: ps) <> "".
Proof.
  intros Hp. destruct p as [|c p]; [congruence|].
  destruct ps; simpl; discriminate.
Qed.

Lemma record_key_nonempty rt d : (record_key rt d =? "") = false.
Proof.
  apply String.eqb_neq. unfold record_key.
  destruct (key_components rt d) as [|p ps] eqn:E.
  - apply str_of_int_nonempty.
  - apply concat_nonempty.
    assert (Hin : In p (key_components rt d)) by (rewrite E; now left).
    unfold key_components in Hin. apply in_flat_map in Hin.
    destruct Hin as [[field label] [Hfl Hp]].
    apply (key_component_nonempty rt d field label); [|exact Hp].
    simpl in Hfl.
    destruct Hfl as [H|[H|[H|[H|[]]]]]; inversion H; discriminate.
Qed.

Lemma first_seen_dedup_from rt ds :
  forallb within_limit ds = true ->
  forall seen earlier,
    (forall k, seen_mem k seen
               = existsb (fun d' => record_key rt d' =? k) earlier) ->
    dedup_from rt seen (map JDict ds) = map JDict (first_seen rt earlier ds).
Proof.
  induction ds as [|d r IH]; intros Hds seen earlier Hinv; [reflexivity|].
  cbn [forallb] in Hds. apply andb_true_iff in Hds. destruct Hds as [Hd Hr].
  cbn [map dedup_from first_seen]. rewrite (dedup_key_dict rt d Hd).
  rewrite record_key_nonempty. cbn [negb andb].
  rewrite (Hinv (record_key rt d)).
  destruct (existsb (fun d' => record_key rt d' =? record_key rt d) earlier)
    eqn:Hseen; cbn [negb map].
  - apply (IH Hr). intros k. rewrite existsb_app, Hinv. cbn [existsb].
    rewrite orb_false_r.
    destruct (String.eqb_spec (record_key rt d) k) as [<-|Hne].
    + now rewrite Hseen.
    + now rewrite orb_false_r.
  - f_equal. apply (IH Hr). intros k. rewrite existsb_app.
    cbn [existsb seen_mem].
    rewrite orb_false_r, orb_comm. f_equal; [apply Hinv|].
    apply String.eqb_sym.
Qed.

Lemma dedup_from_keeps_failed rt l :
  forall seen x e,
    In x l -> dedup_key rt x = Raise e -> In x (dedup_from rt seen l).
Proof.
  induction l as [|a r IH]; intros seen x e; [intros []|].
  cbn [dedup_from]. intros [->|Hx] He.
  - rewrite He. now left.
  - destruct (dedup_key rt a) as [key|e'].
    + destruct (negb (key =? "") && negb (seen_mem key seen));
        [right|]; now apply (IH _ x e).
    + right. now apply (IH _ x e).
Qed.







Lemma dedup_from_idempotent rt l :
  forall seen seen',
    (forall k, seen_mem k seen' = true -> seen_mem k seen = true) ->
    dedup_from rt seen' (dedup_from rt seen l) = dedup_from rt seen l.
Proof.
  induction l as [|x r IH]; intros seen seen' Hsub; [reflexivity|].
  cbn [dedup_from].
  destruct (dedup_key rt x) as [key|e] eqn:Hkey.
  - destruct (key =? "") eqn:Hempty; cbn [negb andb]; [now apply IH|].
    destruct (seen_mem key seen) eqn:Hseen; cbn [negb]; [now apply IH|].
    cbn [dedup_from]. rewrite Hkey, Hempty. cbn [negb andb].
    destruct (seen_mem key seen') eqn:Hseen'.
    + apply Hsub in Hseen'. congruence.
    + cbn [negb]. f_equal. apply IH. intros k. cbn [seen_mem existsb].
      intros H. apply orb_true_iff in H. apply orb_true_iff.
      destruct H as [H|H]; [now left | right; now apply Hsub].
  - cbn [dedup_from]. rewrite Hkey. f_equal. now apply IH.
Qed.




(** C4. Deduplication is idempotent: applied to its own output it returns
    that output unchanged, for every list. *)
Theorem deduplicate_idempotent (rt : runtime) (l : list json) :
  _deduplicate_sources rt (_deduplicate_sources rt l)
  = _deduplicate_sources rt l.
Proof.
  rewrite !deduplicate_sources_from. now apply dedup_from_idempotent.
Qed.

(** *** The scanner *)

Lemma py_in_dict k d : py_in k (JDict d) = Ok (has_key d k).
Proof. reflexivity. Qed.

Lemma scan_fields_dict m st :
  scan_fields (JDict m) st = ((st ++ fields_sources m)%list, Ok tt).
Proof.
  unfold scan_fields, fields_sources. apply for_each_extends.
  intros field st'. rewrite py_in_dict. unfold has_key. cbn [py_getitem].
  destruct (dict_get m field) as [v|].
  - reflexivity.
  - unfold bind, lift, ret. now rewrite app_nil_r.
Qed.

Lemma or_else_Ok a b : or_else (Ok a) (Ok b) = Ok (a || b).
Proof. now destruct a. Qed.

Lemma scan_choice_walkable rt cd st :
  walkable_choice (JDict cd) = true ->
  scan_choice rt (JDict cd) st = ((st ++ choice_sources rt cd)%list, Ok tt).
Proof.
  intros Hw. unfold scan_choice, choice_sources.
  rewrite !py_in_dict, or_else_Ok, !py_get_dict, py_or_Ok.
  cbn [walkable_choice] in Hw. unfold has_key at 1. cbn [py_getitem].
  destruct (dict_get cd "message") as [[| | | | |?|m]|]; try discriminate;
    cbv iota; repeat mstep.
  - erewrite bind_Ok by apply scan_fields_dict. repeat mstep.
    destruct (has_key cd "function_call" || has_key cd "tool_calls");
      repeat mstep; unfold extend, ret;
      now rewrite ?app_nil_r, <- ?app_assoc.
  - destruct (has_key cd "function_call" || has_key cd "tool_calls");
      repeat mstep; unfold extend, ret;
      now rewrite ?app_nil_r, <- ?app_assoc.
Qed.

Lemma choices_loop rt cs st :
  forallb walkable_choice cs = true ->
  for_each cs (scan_choice rt) st
  = ((st ++ flat_map (fun c => match c with
                               | JDict cd => choice_sources rt cd
                               | _ => []
                               end) cs)%list, Ok tt).
Proof.
  intros Hw. apply for_each_extends_in. intros c Hc st'.
  rewrite forallb_forall in Hw. specialize (Hw c Hc).
  destruct c; try discriminate. now apply scan_choice_walkable.
Qed.

Lemma extract_sources_body_walkable rt d :
  walkable d = true ->
  extract_sources_body rt (JDict d) []
  = (located_sources rt d, Ok (_deduplicate_sources rt (located_sources rt d))).
Proof.
  intros Hw. unfold extract_sources_body, located_sources.
  rewrite !py_in_dict, or_else_Ok. unfold context_data.
  rewrite !py_get_dict, py_or_Ok. cbn [py_getitem].
  set (loc1 := match dict_get d "sources" with
               | Some v => _parse_openwebui_sources rt v
               | None => []
               end).
  assert (H1 : forall k : unit -> M (list json) (list json),
             bind (if has_key d "sources"
                   then bind (lift match dict_get d "sources" with
                                   | Some v => Ok v
                                   | None => Raise KeyError
                                   end)
                          (fun v => extend (_parse_openwebui_sources rt v))
                   else ret tt) k []
             = k tt loc1).
  { intros k. subst loc1. unfold has_key.
    destruct (dict_get d "sources"); reflexivity. }
  mstep. rewrite H1. clear H1.
  erewrite bind_Ok by apply scan_fields_dict.
  repeat mstep.
  unfold walkable in Hw. unfold choices_sources, context_sources, has_key at 1.
  destruct (dict_get d "choices") as [[| | | | |cs|?]|]; try discriminate;
    cbv iota; repeat (mstep; cbn [py_iter]).
  - erewrite bind_Ok by (now apply choices_loop). repeat mstep.
    destruct (has_key d "context" || has_key d "retrieved_docs");
      repeat mstep; unfold bind, get, ret;
      now rewrite ?app_nil_r, <- ?app_assoc.
  - destruct (has_key d "context" || has_key d "retrieved_docs");
      repeat mstep; unfold bind, get, ret; cbn [app];
      now rewrite ?app_nil_r, <- ?app_assoc.
Qed.

Lemma extract_sources_dict rt d :
  _extract_sources rt (JDict d)
  = Ok (match snd (extract_sources_body rt (JDict d) []) with
        | Ok unique_sources => unique_sources
        | Raise _ => []
        end).
Proof.
  unfold _extract_sources, try_except.
  now destruct (snd (extract_sources_body rt (JDict d) [])).
Qed.


(** C7, as stated, fails: the [citations] field holds a source, the
    [message] of the only choice is [null], the membership test on it
    raises inside the scanner, and the scan returns no source at all. *)
Lemma null_message_aborts_scan :
  dict_get null_message_doc "citations" = Some (JList [JStr "http://a"])
  /\ _parse_source_field (JList [JStr "http://a"])
     = [url_source (JStr "http://a")]
  /\ (forall rt,
        snd (scan_choice rt (JDict [("message", JNull)]) [])
        = Raise TypeError)
  /\ (forall rt, _extract_sources rt (JDict null_message_doc) = Ok []).
Proof. repeat split. Qed.

(** C7, amended. A failure inside the parser of a location (the OpenWebUI
    parser, the generic parser, the function/tool-call extractor) is
    caught inside that parser, which returns the records it had; so for an
    object document whose [choices], if present, is a list of objects
    whose [message], if present, is an object, the scan returns the
    deduplicated records of all locations in scan order.  A failure raised
    by the scanner itself is caught by its one handler and the scan of an
    object document then returns the empty list. *)
Theorem scan_locations (rt : runtime) (d : list (string * json)) :
  (walkable d = true ->
   _extract_sources rt (JDict d)
   = Ok (_deduplicate_sources rt (located_sources rt d)))
  /\ (forall e,
        snd (extract_sources_body rt (JDict d) []) = Raise e ->
        _extract_sources rt (JDict d) = Ok []).
Proof.
  split.
  - intros Hw. rewrite extract_sources_dict.
    now rewrite (extract_sources_body_walkable rt d Hw).
  - intros e He. rewrite extract_sources_dict. now rewrite He.
Qed.

Lemma scan_locations_witness :
  _parse_openwebui_sources sample_runtime (JInt 5) = []
  /\ snd (parse_openwebui_sources_body sample_runtime (JInt 5) [])
     = Raise TypeError
  /\ _extract_sources sample_runtime (JDict failing_parsers_doc)
     = Ok [url_source (JStr "http://a")]
  /\ _extract_sources sample_runtime (JDict null_message_doc) = Ok [].
Proof.
  split; [reflexivity|]. split; [reflexivity|]. split.
  - exact (proj1 (scan_locations sample_runtime failing_parsers_doc) eq_refl).
  - exact (proj2 (scan_locations sample_runtime null_message_doc)
             TypeError eq_refl).
Defined.

(** *** The content extractor *)

Lemma rstrip_end x c :
  is_space c = false -> rstrip (x ++ String c "") = x ++ String c "".
Proof.
  intros Hc. induction x as [|a x IH]; simpl.
  - now rewrite Hc.
  - rewrite IH. now destruct x.
Qed.

Lemma strip_dict rt d : strip (py_str rt (JDict d)) = py_str rt (JDict d).
Proof.
  cbn [py_str py_repr]. 
  set (x := String.concat ", " _).
  unfold strip. change (lstrip ("{" ++ x ++ "}")) with ("{" ++ x ++ "}").
  change ("{" ++ x ++ "}") with (String "{" x ++ "}").
  now apply rstrip_end.
Qed.

Lemma response_of_content rt d c :
  extract_content (JDict d) = Ok c ->
  exists srcs,
    _extract_sources rt (JDict d) = Ok srcs
    /\ _extract_response rt (JDict d)
       = Ok {| content := if c =? "" then py_str rt (JDict d) else c;
               sources := srcs; raw_response := JDict d |}.
Proof.
  intros Hc. eexists. split; [apply extract_sources_dict|].
  unfold _extract_response, extract_response_body.
  rewrite Hc, extract_sources_dict. cbn [rbind try_except].
  now rewrite strip_dict.
Qed.

Lemma choice_message_content d c rest m s :
  dict_get d "choices" = Some (JList (JDict c :: rest)) ->
  dict_get c "message" = Some (JDict m) ->
  dict_get m "content" = Some (JStr s) ->
  extract_content (JDict d) = Ok (strip s).
Proof.
  intros Hd Hm Hs. unfold extract_content.
  cbn [py_in py_getitem]. rewrite Hd. cbn [and_then rbind truthy py_index list_index nth_error py_in py_getitem].
  rewrite Hm. cbn [and_then rbind py_in py_getitem]. rewrite Hs.
  reflexivity.
Qed.

Lemma choice_text d c rest t :
  dict_get d "choices" = Some (JList (JDict c :: rest)) ->
  (dict_get c "message" = None
   \/ exists m, dict_get c "message" = Some (JDict m)
                /\ dict_get m "content" = None) ->
  dict_get c "text" = Some (JStr t) ->
  extract_content (JDict d) = Ok (strip t).
Proof.
  intros Hd Hm Ht. unfold extract_content.
  cbn [py_in py_getitem]. rewrite Hd. cbn [and_then rbind truthy py_index list_index nth_error py_in py_getitem].
  destruct Hm as [Hm|[m [Hm Hc]]]; rewrite Hm; cbn [and_then rbind py_in py_getitem].
  - rewrite Ht. reflexivity.
  - rewrite Hc, Ht. reflexivity.
Qed.

Lemma recognized_is_dict rd c :
  recognized rd = Ok true -> extract_content rd = Ok c -> exists d, rd = JDict d.
Proof.
  unfold recognized, extract_content.
  destruct rd as [| | | |s|l|d]; try discriminate; [| |now exists d].
  - cbn [py_in py_getitem and_then or_else rbind].
    destruct (str_contains "choices" s); cbn [and_then or_else rbind]; try discriminate.
    destruct (str_contains "response" s); cbn [and_then or_else rbind]; try discriminate.
    destruct (str_contains "content" s); cbn [and_then or_else rbind]; try discriminate.
    destruct (str_contains "message" s); cbn [and_then or_else rbind]; discriminate.
  - cbn [py_in py_getitem and_then or_else rbind].
    destruct (existsb (is_str "choices") l); cbn [and_then or_else rbind]; try discriminate.
    destruct (existsb (is_str "response") l); cbn [and_then or_else rbind]; try discriminate.
    destruct (existsb (is_str "content") l); cbn [and_then or_else rbind]; try discriminate.
    destruct (existsb (is_str "message") l); cbn [and_then or_else rbind]; discriminate.
Qed.

Lemma unrecognized_dict d :
  recognized (JDict d) = Ok false -> extract_content (JDict d) = Ok "".
Proof.
  unfold recognized, extract_content.
  cbn [py_in py_getitem].
  destruct (dict_get d "choices") as [v|]; cbn [and_then or_else rbind].
  - destruct (truthy v); cbn [and_then or_else rbind]; [discriminate|].
    destruct (dict_get d "response"); cbn [and_then or_else rbind]; [discriminate|].
    destruct (dict_get d "content"); cbn [and_then or_else rbind]; [discriminate|].
    destruct (dict_get d "message"); cbn [and_then or_else rbind]; [discriminate|].
    reflexivity.
  - destruct (dict_get d "response"); cbn [and_then or_else rbind]; [discriminate|].
    destruct (dict_get d "content"); cbn [and_then or_else rbind]; [discriminate|].
    destruct (dict_get d "message"); cbn [and_then or_else rbind]; [discriminate|].
    reflexivity.
Qed.

(** C2. When [choices] is a non-empty list whose first element is an
    object with a [message] object holding a string [content], the
    content variable is that string trimmed, and it is the content of the
    result when it is non-empty; when the first choice has no message with
    content but a string [text], the trimmed text is used in the same
    way. *)
Theorem openai_choice_content (rt : runtime) (d c : list (string * json))
    (rest : list json) :
  dict_get d "choices" = Some (JList (JDict c :: rest)) ->
  (forall m s,
      dict_get c "message" = Some (JDict m) ->
      dict_get m "content" = Some (JStr s) ->
      extract_content (JDict d) = Ok (strip s)
      /\ ((strip s =? "") = false ->
          exists srcs,
            _extract_sources rt (JDict d) = Ok srcs
            /\ _extract_response rt (JDict d)
               = Ok {| content := strip s; sources := srcs;
                       raw_response := JDict d |}))
  /\ (forall t,
        (dict_get c "message" = None
         \/ exists m, dict_get c "message" = Some (JDict m)
                      /\ dict_get m "content" = None) ->
        dict_get c "text" = Some (JStr t) ->
        extract_content (JDict d) = Ok (strip t)
        /\ ((strip t =? "") = false ->
            exists srcs,
              _extract_sources rt (JDict d) = Ok srcs
              /\ _extract_response rt (JDict d)
                 = Ok {| content := strip t; sources := srcs;
                         raw_response := JDict d |})).
Proof.
  intros Hd. split.
  - intros m s Hm Hs.
    pose proof (choice_message_content d c rest m s Hd Hm Hs) as Hc.
    split; [exact Hc|]. intros Hne.
    destruct (response_of_content rt d _ Hc) as [srcs [H1 H2]].
    exists srcs. split; [exact H1|]. now rewrite Hne in H2.
  - intros t Hm Ht.
    pose proof (choice_text d c rest t Hd Hm Ht) as Hc.
    split; [exact Hc|]. intros Hne.
    destruct (response_of_content rt d _ Hc) as [srcs [H1 H2]].
    exists srcs. split; [exact H1|]. now rewrite Hne in H2.
Qed.

Lemma openai_choice_content_witness :
  extract_content (JDict message_content_doc) = Ok "hello"
  /\ (exists srcs,
        _extract_sources sample_runtime (JDict message_content_doc) = Ok srcs
        /\ _extract_response sample_runtime (JDict message_content_doc)
           = Ok {| content := "hello"; sources := srcs;
                   raw_response := JDict message_content_doc |})
  /\ extract_content (JDict choice_text_doc) = Ok "hi"
  /\ (exists srcs,
        _extract_sources sample_runtime (JDict choice_text_doc) = Ok srcs
        /\ _extract_response sample_runtime (JDict choice_text_doc)
           = Ok {| content := "hi"; sources := srcs;
                   raw_response := JDict choice_text_doc |}).
Proof.
  pose (H1 := proj1 (openai_choice_content sample_runtime message_content_doc
                       [("message", JDict [("content", JStr "  hello ")])] []
                       eq_refl)
                [("content", JStr "  hello ")] "  hello " eq_refl eq_refl).
  pose (H2 := proj2 (openai_choice_content sample_runtime choice_text_doc
                       [("text", JStr " hi ")] [] eq_refl)
                " hi " (or_introl eq_refl) eq_refl).
  split; [exact (proj1 H1)|].
  split; [exact (proj2 H1 eq_refl)|].
  split; [exact (proj1 H2)|].
  exact (proj2 H2 eq_refl).
Defined.

(** C10. A document that takes one of the content branches but whose
    extracted content is empty after trimming is an object, and the
    extractor does not return the empty string: the content of the result
    is the rendering of the raw document, which is not empty; a document
    object that takes none of the branches gets the same fallback. *)
Theorem empty_content_falls_back (rt : runtime) :
  (forall response_data,
      recognized response_data = Ok true ->
      extract_content response_data = Ok "" ->
      exists srcs,
        _extract_sources rt response_data = Ok srcs
        /\ _extract_response rt response_data
           = Ok {| content := strip (py_str rt response_data);
                   sources := srcs; raw_response := response_data |}
        /\ (strip (py_str rt response_data) =? "") = false)
  /\ (forall d,
        recognized (JDict d) = Ok false ->
        extract_content (JDict d) = Ok ""
        /\ exists srcs,
             _extract_sources rt (JDict d) = Ok srcs
             /\ _extract_response rt (JDict d)
                = Ok {| content := strip (py_str rt (JDict d));
                        sources := srcs; raw_response := JDict d |}).
Proof.
  split.
  - intros rd Hrec Hc.
    destruct (recognized_is_dict rd _ Hrec Hc) as [d ->].
    destruct (response_of_content rt d _ Hc) as [srcs [H1 H2]].
    exists srcs. rewrite strip_dict. repeat split; assumption || reflexivity.
  - intros d Hrec. pose proof (unrecognized_dict d Hrec) as Hc.
    split; [exact Hc|].
    destruct (response_of_content rt d _ Hc) as [srcs [H1 H2]].
    exists srcs. rewrite strip_dict. split; assumption.
Qed.

Lemma empty_content_falls_back_witness :
  (exists srcs,
      _extract_sources sample_runtime (JDict blank_response_doc) = Ok srcs
      /\ _extract_response sample_runtime (JDict blank_response_doc)
         = Ok {| content := "{'response': '  '}"; sources := srcs;
                 raw_response := JDict blank_response_doc |}
      /\ ("{'response': '  '}" =? "") = false)
  /\ extract_content (JDict [("id", JInt 7)]) = Ok "".
Proof.
  split.
  - exact (proj1 (empty_content_falls_back sample_runtime)
             (JDict blank_response_doc) eq_refl eq_refl).
  - exact (proj1 (proj2 (empty_content_falls_back sample_runtime)
                    [("id", JInt 7)] eq_refl)).
Defined.
(** ** Further properties *)
Import WebUIClientApi Laws MoreSamples.

(** *** More on deduplication *)

Lemma subsequence_Forall {A : Type} (P : A -> Prop) (l1 l2 : list A) :
  subsequence l1 l2 -> Forall P l2 -> Forall P l1.
Proof.
  intros H. induction H; intros HP; [constructor| |];
    inversion HP; subst; auto.
Qed.

Lemma dedup_from_subsequence rt l :
  forall seen, subsequence (dedup_from rt seen l) l.
Proof.
  induction l as [|x r IH]; intros seen; cbn [dedup_from]; [constructor|].
  destruct (dedup_key rt x) as [key|e].
  - destruct (negb (key =? "") && negb (seen_mem key seen));
      constructor; apply IH.
  - constructor. apply IH.
Qed.

(** X1. The deduplicator returns a subsequence of its input: it never
    adds, changes or reorders a source; and the first source of a
    non-empty input is always kept. *)
Theorem deduplicate_subsequence (rt : runtime) (l : list json) :
  subsequence (_deduplicate_sources rt l) l
  /\ (forall x, exists r', _deduplicate_sources rt (x :: l) = x :: r').
Proof.
  split.
  - rewrite deduplicate_sources_from. apply dedup_from_subsequence.
  - intros x. rewrite deduplicate_sources_from. cbn [dedup_from].
    destruct (dedup_key rt x) as [key|e] eqn:Hk.
    + destruct (dedup_key_Ok_dict rt x key Hk) as [d [-> ->]].
      rewrite record_key_nonempty. cbn. eauto.
    + eauto.
Qed.

Lemma existsb_key_In rt k earlier :
  existsb (fun d' => record_key rt d' =? k) earlier = true
  <-> In k (map (record_key rt) earlier).
Proof.
  rewrite existsb_exists, in_map_iff. split.
  - intros [d [Hd He]]. apply String.eqb_eq in He. eauto.
  - intros [d [He Hd]]. exists d. split; [exact Hd|]. now apply String.eqb_eq.
Qed.

Lemma first_seen_fresh rt l :
  forall earlier x,
    In x (first_seen rt earlier l) ->
    ~ In (record_key rt x) (map (record_key rt) earlier).
Proof.
  induction l as [|d r IH]; intros earlier x; cbn [first_seen]; [intros []|].
  assert (Hrest : In x (first_seen rt (earlier ++ [d])%list r) ->
                  ~ In (record_key rt x) (map (record_key rt) earlier)).
  { intros Hx Hin. apply (IH _ _ Hx). rewrite map_app, in_app_iff. now left. }
  destruct (existsb _ earlier) eqn:He; [exact Hrest|].
  intros [<-|Hx]; [|now apply Hrest].
  intros Hin. apply existsb_key_In in Hin. congruence.
Qed.

Lemma first_seen_NoDup rt l :
  forall earlier, NoDup (map (record_key rt) (first_seen rt earlier l)).
Proof.
  induction l as [|d r IH]; intros earlier; cbn [first_seen]; [constructor|].
  destruct (existsb _ earlier); [apply IH|].
  cbn [map]. constructor; [|apply IH].
  intros Hin. apply in_map_iff in Hin. destruct Hin as [x [Hk Hx]].
  apply (first_seen_fresh rt r _ x Hx).
  rewrite map_app, in_app_iff. right. rewrite Hk. now left.
Qed.

Lemma deduplicate_records rt records :
  forallb within_limit records = true ->
  _deduplicate_sources rt (map JDict records)
  = map JDict (first_seen rt [] records).
Proof.
  intros H. rewrite deduplicate_sources_from. now apply first_seen_dedup_from.
Qed.

Lemma seen_mem_cons k key seen :
  seen_mem k seen = true -> seen_mem k (key :: seen) = true.
Proof. intros H. cbn [seen_mem existsb]. fold (seen_mem k seen). rewrite H. apply orb_true_r. Qed.

Lemma dedup_from_keys rt l :
  forall seen,
    NoDup (computed_keys rt (dedup_from rt seen l))
    /\ (forall k, In k (computed_keys rt (dedup_from rt seen l)) ->
                  seen_mem k seen = false).
Proof.
  induction l as [|a r IH]; intros seen; cbn [dedup_from].
  - split; [constructor | intros k []].
  - destruct (dedup_key rt a) as [key|e] eqn:Hk.
    + destruct (key =? "") eqn:Hempty; cbn [negb andb]; [apply IH|].
      destruct (seen_mem key seen) eqn:Hseen; cbn [negb]; [apply IH|].
      destruct (IH (key :: seen)) as [Hnd Hfresh].
      unfold computed_keys in *. cbn [flat_map]. rewrite Hk. cbn [app].
      split.
      * constructor; [|exact Hnd]. intros Hin. apply Hfresh in Hin.
        cbn [seen_mem existsb] in Hin. now rewrite String.eqb_refl in Hin.
      * intros k [<-|Hin]; [exact Hseen|].
        apply Hfresh in Hin. destruct (seen_mem k seen) eqn:Hs; [|reflexivity].
        now rewrite (seen_mem_cons k key seen Hs) in Hin.
    + unfold computed_keys in *. cbn [flat_map]. rewrite Hk. cbn [app].
      apply IH.
Qed.

(** X2. The sources kept by the deduplicator whose key can be computed
    have pairwise distinct keys, for every input; so when no record of
    the input holds an integer of more than 4300 digits, the records kept
    have pairwise distinct keys. *)
Theorem deduplicate_distinct_keys (rt : runtime) (l : list json)
    (records : list (list (string * json))) :
  NoDup (computed_keys rt (_deduplicate_sources rt l))
  /\ (forallb within_limit records = true ->
      exists kept,
        _deduplicate_sources rt (map JDict records) = map JDict kept
        /\ NoDup (map (record_key rt) kept)).
Proof.
  split.
  - rewrite deduplicate_sources_from. apply dedup_from_keys.
  - intros H. exists (first_seen rt [] records). split.
    + now apply deduplicate_records.
    + apply first_seen_NoDup.
Qed.

Lemma deduplicate_distinct_keys_witness :
  exists kept,
    _deduplicate_sources sample_runtime
      (map JDict [source_A; source_B; source_C]) = map JDict kept
    /\ NoDup (map (record_key sample_runtime) kept).
Proof.
  exact (proj2 (deduplicate_distinct_keys sample_runtime []
                  [source_A; source_B; source_C]) eq_refl).
Defined.

Lemma dedup_from_covers rt l :
  forall seen x k,
    In x l -> dedup_key rt x = Ok k ->
    seen_mem k seen = true
    \/ exists y, In y (dedup_from rt seen l) /\ dedup_key rt y = Ok k.
Proof.
  induction l as [|a r IH]; intros seen x k; [intros []|].
  cbn [dedup_from]. intros [->|Hx] Hk.
  - rewrite Hk. destruct (dedup_key_Ok_dict rt x k Hk) as [d [-> ->]].
    rewrite record_key_nonempty. cbn [negb andb].
    destruct (seen_mem (record_key rt d) seen); [now left|].
    right. exists (JDict d). split; [now left | exact Hk].
  - destruct (dedup_key rt a) as [key|e] eqn:Ha.
    + destruct (negb (key =? "") && negb (seen_mem key seen)).
      * destruct (IH (key :: seen) x k Hx Hk) as [Hs|[y [Hy Hyk]]].
        -- cbn [seen_mem existsb] in Hs. apply orb_true_iff in Hs.
           destruct Hs as [He|Hs]; [|now left].
           apply String.eqb_eq in He. subst key.
           right. exists a. split; [now left | exact Ha].
        -- right. exists y. split; [now right | exact Hyk].
      * apply (IH seen x k Hx Hk).
    + destruct (IH seen x k Hx Hk) as [Hs|[y [Hy Hyk]]]; [now left|].
      right. exists y. split; [now right | exact Hyk].
Qed.

(** X3. No key is lost: for every record of the input a record with the
    same key is kept. *)
Theorem deduplicate_covers_keys (rt : runtime)
    (records : list (list (string * json))) (d : list (string * json)) :
  In d records ->
  exists d', In (JDict d') (_deduplicate_sources rt (map JDict records))
             /\ record_key rt d' = record_key rt d.
Proof.
  intros Hd. rewrite deduplicate_sources_from.
  assert (Hin : In (JDict d) (map JDict records)) by now apply in_map.
  destruct (dedup_key rt (JDict d)) as [k|e] eqn:Hk.
  - destruct (dedup_from_covers rt _ [] _ k Hin Hk) as [Hs|[y [Hy Hyk]]];
      [discriminate|].
    destruct (dedup_key_Ok_dict rt _ _ Hyk) as [d' [-> Hk']].
    destruct (dedup_key_Ok_dict rt _ _ Hk) as [d0 [[= <-] Hk0]].
    exists d'. split; [exact Hy | congruence].
  - exists d. split; [|reflexivity].
    now apply (dedup_from_keeps_failed rt _ [] _ e).
Qed.

Lemma deduplicate_covers_keys_witness :
  exists d', In (JDict d')
               (_deduplicate_sources sample_runtime
                  (map JDict [source_A; source_B; source_C]))
             /\ record_key sample_runtime d' = record_key sample_runtime source_C.
Proof.
  apply (deduplicate_covers_keys sample_runtime [source_A; source_B; source_C]
           source_C).
  simpl. auto.
Defined.

Lemma dedup_from_keeps_others rt l :
  forall seen,
    filter (fun v => negb (is_object v)) (dedup_from rt seen l)
    = filter (fun v => negb (is_object v)) l.
Proof.
  induction l as [|x r IH]; intros seen; cbn [dedup_from]; [reflexivity|].
  destruct (dedup_key rt x) as [key|e] eqn:Hk.
  - destruct (dedup_key_Ok_dict rt x key Hk) as [d [-> _]].
    cbn [filter is_object negb].
    destruct (negb (key =? "") && negb (seen_mem key seen));
      cbn [filter is_object negb]; apply IH.
  - cbn [filter]. rewrite IH. reflexivity.
Qed.

(** X4. A source that is not an object has no key: the [except] branch
    keeps it, so all such values of the input are in the output, in
    order and as often as they occur. *)
Theorem deduplicate_keeps_non_objects (rt : runtime) (l : list json) :
  filter (fun v => negb (is_object v)) (_deduplicate_sources rt l)
  = filter (fun v => negb (is_object v)) l.
Proof. rewrite deduplicate_sources_from. apply dedup_from_keeps_others. Qed.

Lemma dedup_from_app rt l1 :
  forall seen l2,
    exists seen',
      dedup_from rt seen (l1 ++ l2)%list
      = (dedup_from rt seen l1 ++ dedup_from rt seen' l2)%list.
Proof.
  induction l1 as [|x r IH]; intros seen l2; cbn [app dedup_from].
  - now exists seen.
  - destruct (dedup_key rt x) as [key|e].
    + destruct (negb (key =? "") && negb (seen_mem key seen)).
      * destruct (IH (key :: seen) l2) as [seen' H]. exists seen'.
        now rewrite H.
      * apply IH.
    + destruct (IH seen l2) as [seen' H]. exists seen'. now rewrite H.
Qed.

(** X5. What is kept of a list does not depend on what follows it: the
    result on [l1 ++ l2] is the result on [l1] followed by a subsequence
    of [l2]. *)
Theorem deduplicate_prefix_stable (rt : runtime) (l1 l2 : list json) :
  exists tail,
    _deduplicate_sources rt (l1 ++ l2)%list
    = (_deduplicate_sources rt l1 ++ tail)%list
    /\ subsequence tail l2.
Proof.
  rewrite !deduplicate_sources_from.
  destruct (dedup_from_app rt l1 [] l2) as [seen' H].
  exists (dedup_from rt seen' l2). split; [exact H|].
  apply dedup_from_subsequence.
Qed.

(** *** More on the generic parser *)

Lemma object_sources_generic d r : In r (object_sources d) -> generic_record r.
Proof.
  unfold object_sources.
  destruct (truthy (object_url d) || truthy (dget d "title" (JStr "")));
    [|intros []].
  intros [<-|[]]. unfold generic_record, object_record. eauto 10.
Qed.

Lemma url_source_generic item : generic_record (url_source item).
Proof. unfold generic_record, url_source. eauto 10. Qed.

(** X6. Every record the generic parser returns, on any input, is an
    object with exactly the four fields title, url, snippet and score. *)
Theorem parse_source_field_records (v r : json) :
  In r (_parse_source_field v) -> generic_record r.
Proof.
  rewrite parse_source_field_spec. destruct v as [| | | |s|items|d];
    try (intros []).
  - destruct (startswith s "http" || startswith s "www"); [|intros []].
    intros [<-|[]]. apply url_source_generic.
  - intros Hin. apply in_flat_map in Hin. destruct Hin as [item [_ Hr]].
    destruct item; try (now destruct Hr).
    + destruct Hr as [<-|[]]. apply url_source_generic.
    + eapply object_sources_generic; eassumption.
  - apply object_sources_generic.
Qed.

Lemma parse_source_field_records_witness :
  generic_record (url_source (JStr "http://a")).
Proof.
  apply (parse_source_field_records (JList [JStr "http://a"])).
  simpl. auto.
Defined.

(** X7. On a list-shaped field the parser works element by element:
    the result on a concatenation is the concatenation of the results,
    and there is at most one record per element. *)
Theorem parse_source_field_app (items1 items2 : list json) :
  _parse_source_field (JList (items1 ++ items2))
  = (_parse_source_field (JList items1)
     ++ _parse_source_field (JList items2))%list
  /\ length (_parse_source_field (JList items1)) <= length items1.
Proof.
  rewrite !parse_source_field_spec. split; [apply flat_map_app|].
  induction items1 as [|item r IH]; [apply Nat.le_refl|].
  cbn [flat_map]. rewrite length_app. cbn [length].
  assert (length (item_sources item) <= 1); [|lia].
  destruct item; simpl; try lia.
  unfold object_sources.
  destruct (truthy (object_url d) || truthy (dget d "title" (JStr "")));
    simpl; lia.
Qed.

(** X8. A string inside a list is taken as a url whatever it is, even
    empty, while a string that is the whole field is taken only if it
    starts with "http" or "www": the parser does not guarantee that a
    record has a non-empty url or title. *)
Theorem parse_source_field_strings (s : string) :
  _parse_source_field (JList [JStr s]) = [url_source (JStr s)]
  /\ (startswith s "http" || startswith s "www" = false ->
      _parse_source_field (JStr s) = [])
  /\ (startswith s "http" || startswith s "www" = true ->
      _parse_source_field (JStr s) = [url_source (JStr s)]).
Proof.
  rewrite !parse_source_field_spec. split; [reflexivity|].
  split; intros ->; reflexivity.
Qed.

Lemma parse_source_field_strings_witness :
  _parse_source_field (JStr "see appendix") = []
  /\ _parse_source_field (JStr "www.example.org") = [url_source (JStr "www.example.org")].
Proof.
  split.
  - exact (proj1 (proj2 (parse_source_field_strings "see appendix")) eq_refl).
  - exact (proj2 (proj2 (parse_source_field_strings "www.example.org")) eq_refl).
Defined.

(** *** Computations that only append *)

Lemma ao_ret {A : Type} (a : A) : appends_only (ret a).
Proof. intros st. unfold ret. cbn. now rewrite app_nil_r. Qed.

Lemma ao_lift {A : Type} (r : result A) : appends_only (lift r).
Proof. intros st. unfold lift. cbn. now rewrite app_nil_r. Qed.

Lemma ao_append x : appends_only (append x).
Proof. intros st. reflexivity. Qed.

Lemma ao_extend l : appends_only (extend l).
Proof. intros st. reflexivity. Qed.

Lemma ao_bind {A B : Type} (m : M (list json) A) (k : A -> M (list json) B) :
  appends_only m -> (forall a, appends_only (k a)) -> appends_only (bind m k).
Proof.
  intros Hm Hk st. unfold bind. rewrite (Hm st).
  destruct (m []) as [f [a|e]]; cbn [fst snd].
  - rewrite (Hk a (st ++ f)%list), (Hk a f). cbn [fst snd].
    now rewrite app_assoc.
  - reflexivity.
Qed.

Lemma ao_if {A : Type} (b : bool) (m1 m2 : M (list json) A) :
  appends_only m1 -> appends_only m2 -> appends_only (if b then m1 else m2).
Proof. now destruct b. Qed.

Lemma ao_for_enumerate {A : Type} (f : nat -> A -> M (list json) unit) l :
  (forall i x, appends_only (f i x)) ->
  forall i0, appends_only (for_enumerate i0 l f).
Proof.
  intros Hf. induction l as [|x r IH]; intros i0; cbn [for_enumerate].
  - apply ao_ret.
  - apply ao_bind; [apply Hf | intros _; apply IH].
Qed.

Ltac appends :=
  repeat first [ apply ao_bind; [|intros ?]
               | apply ao_lift
               | apply ao_ret
               | apply ao_append
               | apply ao_extend
               | apply ao_if
               | apply ao_for_enumerate; intros ].

Lemma ao_add_source_item rt item : appends_only (add_source_item rt item).
Proof.
  destruct item; cbn [add_source_item]; try apply ao_ret.
  appends.
Qed.

Lemma ao_add_call_sources rt func : appends_only (add_call_sources rt func).
Proof.
  unfold add_call_sources. appends.
Qed.

(** A loop over computations that only append collects until the first
    one that raises. *)
Lemma for_each_until_raise (f : json -> M (list json) unit) items :
  (forall x, appends_only (f x)) ->
  forall st, fst (for_each items f st) = (st ++ until_raise f items)%list.
Proof.
  intros Hf. unfold for_each. generalize 0.
  induction items as [|x r IH]; intros i0 st; cbn [for_enumerate until_raise].
  - unfold ret. cbn. now rewrite app_nil_r.
  - unfold bind. rewrite (Hf x st).
    destruct (f x []) as [out [[]|e]]; cbn [fst snd].
    + rewrite IH. now rewrite app_assoc.
    + now rewrite app_nil_r.
Qed.

(** *** More on the OpenWebUI parser *)

(** X9. A failure inside the OpenWebUI parser does not lose what was
    parsed before it: on a list of groups the result is the records of
    the groups up to the first group that raises, with the records that
    group had produced before it raised; the groups after it are not
    looked at. *)
Theorem parse_openwebui_sources_until_raise (rt : runtime) (groups : list json) :
  _parse_openwebui_sources rt (JList groups)
  = until_raise (add_source_item rt) groups
  /\ (forall g u,
        snd (add_source_item rt g []) = Ok u ->
        _parse_openwebui_sources rt (JList (g :: groups))
        = (_parse_openwebui_sources rt (JList [g])
           ++ _parse_openwebui_sources rt (JList groups))%list)
  /\ (forall g e,
        snd (add_source_item rt g []) = Raise e ->
        _parse_openwebui_sources rt (JList (g :: groups))
        = _parse_openwebui_sources rt (JList [g])).
Proof.
  assert (H : forall l, _parse_openwebui_sources rt (JList l)
                        = until_raise (add_source_item rt) l).
  { intros l. unfold _parse_openwebui_sources, collected,
      parse_openwebui_sources_body.
    cbn [py_iter]. mstep.
    rewrite for_each_until_raise by apply ao_add_source_item. reflexivity. }
  split; [apply H|]. split.
  - intros g u Hg. rewrite !H. cbn [until_raise]. rewrite Hg.
    now rewrite app_nil_r.
  - intros g e Hg. rewrite !H. cbn [until_raise]. now rewrite Hg.
Qed.

Lemma parse_openwebui_sources_until_raise_witness :
  _parse_openwebui_sources sample_runtime
    (JList [zero_distance_group; bad_source_group; zero_distance_group])
  = (_parse_openwebui_sources sample_runtime (JList [zero_distance_group])
     ++ _parse_openwebui_sources sample_runtime
          (JList [bad_source_group; zero_distance_group]))%list
  /\ _parse_openwebui_sources sample_runtime
       (JList [bad_source_group; zero_distance_group])
     = _parse_openwebui_sources sample_runtime (JList [bad_source_group]).
Proof.
  split.
  - exact (proj1 (proj2 (parse_openwebui_sources_until_raise sample_runtime
                           [bad_source_group; zero_distance_group]))
             zero_distance_group tt eq_refl).
  - exact (proj2 (proj2 (parse_openwebui_sources_until_raise sample_runtime
                           [zero_distance_group]))
             bad_source_group AttributeError eq_refl).
Defined.

(** X10. The parser expects a list of groups: a [sources] value of any
    other type (null, a number, a string, an object) gives no record and
    no exception. *)
Theorem parse_openwebui_sources_not_a_list (rt : runtime) (v : json) :
  (forall groups, v <> JList groups) -> _parse_openwebui_sources rt v = [].
Proof.
  intros Hv. unfold _parse_openwebui_sources, collected,
    parse_openwebui_sources_body.
  destruct v as [| | | |s|groups|d]; try reflexivity.
  - cbn [py_iter]. mstep.
    rewrite for_each_until_raise by apply ao_add_source_item.
    clear Hv. induction (str_chars s) as [|c r IH]; [reflexivity|]. exact IH.
  - now destruct (Hv groups).
  - cbn [py_iter]. mstep.
    rewrite for_each_until_raise by apply ao_add_source_item.
    clear Hv. induction d as [|kv r IH]; [reflexivity|]. exact IH.
Qed.

Lemma parse_openwebui_sources_not_a_list_witness :
  _parse_openwebui_sources sample_runtime (JStr "not a list") = []
  /\ _parse_openwebui_sources sample_runtime
       (JDict [("document", JList [JStr "doc"])]) = [].
Proof.
  split.
  - apply (parse_openwebui_sources_not_a_list sample_runtime). discriminate.
  - apply (parse_openwebui_sources_not_a_list sample_runtime). discriminate.
Defined.

Lemma aa_ret P {A : Type} (a : A) : appends_all P (ret a).
Proof. intros st H. exact H. Qed.

Lemma aa_lift P {A : Type} (r : result A) : appends_all P (lift r).
Proof. intros st H. exact H. Qed.

Lemma aa_bind P {A B : Type} (m : M (list json) A) (k : A -> M (list json) B) :
  appends_all P m -> (forall a, appends_all P (k a)) ->
  appends_all P (bind m k).
Proof.
  intros Hm Hk st H. unfold bind. specialize (Hm st H).
  destruct (m st) as [st' [a|e]]; cbn [fst] in *; [now apply Hk | exact Hm].
Qed.

Lemma aa_for_enumerate P {A : Type} (f : nat -> A -> M (list json) unit) l :
  (forall i x, appends_all P (f i x)) ->
  forall i0, appends_all P (for_enumerate i0 l f).
Proof.
  intros Hf. induction l as [|x r IH]; intros i0; cbn [for_enumerate].
  - apply aa_ret.
  - apply aa_bind; [apply Hf | intros _; apply IH].
Qed.

Lemma score_of_number d score : score_of d = Ok score -> is_number score = true.
Proof.
  unfold score_of. destruct (truthy d); [|now intros [= <-]].
  destruct d; simpl; try discriminate; now intros [= <-].
Qed.

(** What the loop body does to the list, in every case. *)
Lemma add_document_cases rt cid ctype ml ds i doc st :
  fst (add_document rt cid ctype ml ds i doc st) = st
  \/ exists md score,
       score_of (nth i ds (JInt 0)) = Ok score
       /\ fst (add_document rt cid ctype ml ds i doc st)
          = (st ++ [document_record rt cid ctype md score doc])%list.
Proof.
  destruct (nth i ml (JDict [])) as [| | | | | |md] eqn:Hmd;
    try (left; unfold add_document;
         rewrite metadata_at_nth, distance_at_nth, Hmd; reflexivity).
  destruct (score_of (nth i ds (JInt 0))) as [score|e] eqn:Hs.
  - rewrite (add_document_object rt cid ctype ml ds i doc md score st Hmd Hs).
    cbn [fst]. destruct (document_kept rt md doc).
    + right. exists md, score. split; reflexivity.
    + left. apply app_nil_r.
  - left. unfold add_document.
    rewrite metadata_at_nth, distance_at_nth, Hmd.
    rewrite !bind_lift_Ok. cbv beta. rewrite Hs.
    rewrite !py_get_dict, !py_or_Ok. rewrite !bind_lift_Ok. cbv beta.
    destruct (truthy (dget md "page" JNull)); reflexivity.
Qed.

Lemma aa_add_document rt cid ctype ml ds i doc :
  appends_all (openwebui_record rt) (add_document rt cid ctype ml ds i doc).
Proof.
  intros st H.
  destruct (add_document_cases rt cid ctype ml ds i doc st)
    as [->|[md [score [Hs ->]]]]; [exact H|].
  apply Forall_app. split; [exact H|]. constructor; [|constructor].
  exists cid, ctype, md, score, doc. split; [reflexivity|].
  now apply score_of_number in Hs.
Qed.

Lemma aa_add_source_item rt item :
  appends_all (openwebui_record rt) (add_source_item rt item).
Proof.
  destruct item; cbn [add_source_item]; try apply aa_ret.
  repeat (apply aa_bind; [apply aa_lift | intros ?]).
  apply aa_for_enumerate. intros. apply aa_add_document.
Qed.

Lemma parse_openwebui_sources_Forall rt v :
  Forall (openwebui_record rt) (_parse_openwebui_sources rt v).
Proof.
  unfold _parse_openwebui_sources, collected, parse_openwebui_sources_body.
  apply aa_bind; [apply aa_lift | | constructor].
  intros items. apply aa_for_enumerate. intros. apply aa_add_source_item.
Qed.

Lemma substring_length n : forall s, String.length (substring 0 n s) <= n.
Proof.
  induction n as [|n IH]; intros s; destruct s; simpl; try lia.
  specialize (IH s). lia.
Qed.

Lemma string_length_app (a b : string) :
  String.length (a ++ b) = String.length a + String.length b.
Proof. induction a as [|c a IH]; simpl; [reflexivity | now rewrite IH]. Qed.

Lemma snippet_of_length rt doc : String.length (snippet_of rt doc) <= 303.
Proof.
  unfold snippet_of.
  destruct (Nat.ltb_spec 300 (String.length (py_str rt doc))) as [H|H].
  - rewrite string_length_app. pose proof (substring_length 300 (py_str rt doc)).
    simpl String.length at 2. lia.
  - lia.
Qed.

(** X11. Every record the OpenWebUI parser returns, on any input and
    also when it stopped on a failure, has the nine fields of a parsed
    document, a number as score, and a string of at most 303 characters
    as snippet; a document text of at most 300 characters is its own
    snippet. *)
Theorem parse_openwebui_sources_records (rt : runtime) (v r : json) :
  In r (_parse_openwebui_sources rt v) ->
  exists cid ctype md score doc,
    r = document_record rt cid ctype md score doc
    /\ is_number score = true
    /\ py_getitem r "snippet" = Ok (JStr (snippet_of rt doc))
    /\ String.length (snippet_of rt doc) <= 303
    /\ (String.length (py_str rt doc) <= 300 ->
        snippet_of rt doc = py_str rt doc).
Proof.
  intros Hin.
  pose proof (parse_openwebui_sources_Forall rt v) as H.
  rewrite Forall_forall in H.
  destruct (H r Hin) as [cid [ctype [md [score [doc [-> Hn]]]]]].
  exists cid, ctype, md, score, doc.
  split; [reflexivity|]. split; [exact Hn|]. split; [reflexivity|].
  split; [apply snippet_of_length|].
  intros Hlen. unfold snippet_of.
  destruct (Nat.ltb_spec 300 (String.length (py_str rt doc))); [lia|reflexivity].
Qed.

Lemma parse_openwebui_sources_records_witness :
  exists cid ctype md score doc,
    document_record sample_runtime (JStr "") (JStr "") [] (JInt 0) (JStr "doc")
    = document_record sample_runtime cid ctype md score doc
    /\ is_number score = true
    /\ py_getitem (document_record sample_runtime (JStr "") (JStr "") []
                     (JInt 0) (JStr "doc")) "snippet"
       = Ok (JStr (snippet_of sample_runtime doc))
    /\ String.length (snippet_of sample_runtime doc) <= 303
    /\ (String.length (py_str sample_runtime doc) <= 300 ->
        snippet_of sample_runtime doc = py_str sample_runtime doc).
Proof.
  apply (parse_openwebui_sources_records sample_runtime
           (JList [zero_distance_group])).
  simpl. auto.
Defined.

(** *** More on the function-call extractor *)

(** X12. The extractor stops at the first call that fails: on a list of
    calls the result is the sources of the calls before it, the later
    calls are not looked at; in particular when the arguments of the
    first call with arguments are a string that does not decode, the
    result is empty whatever follows. *)
Theorem extract_sources_from_functions_until_raise (rt : runtime)
    (funcs : list json) :
  _extract_sources_from_functions rt (JList funcs)
  = until_raise (add_call_sources rt) funcs
  /\ (forall func f s e rest,
        dict_get func "function" = Some (JDict f) ->
        dict_get f "arguments" = Some (JStr s) ->
        json_loads rt s = Raise e ->
        _extract_sources_from_functions rt (JList (JDict func :: rest)) = []).
Proof.
  assert (H : forall l, _extract_sources_from_functions rt (JList l)
                        = until_raise (add_call_sources rt) l).
  { intros l. unfold _extract_sources_from_functions, collected,
      extract_sources_from_functions_body.
    change (fun func : json => _) with (add_call_sources rt).
    rewrite for_each_until_raise by apply ao_add_call_sources. reflexivity. }
  split; [apply H|].
  intros func f s e rest Hf Ha Hl. rewrite H. cbn [until_raise].
  assert (Hcall : add_call_sources rt (JDict func) [] = ([], Raise e)).
  { unfold add_call_sources. cbn [py_in py_getitem]. rewrite Hf.
    cbn [and_then rbind py_in py_getitem]. rewrite Ha.
    cbn [and_then rbind]. repeat mstep. unfold add_argument_sources.
    rewrite Hl. reflexivity. }
  now rewrite Hcall.
Qed.

Lemma extract_sources_from_functions_until_raise_witness :
  _extract_sources_from_functions sample_runtime
    (JList [JDict [("function", JDict [("arguments", JStr "{bad")])];
            JDict [("function",
                    JDict [("arguments",
                            JDict [("sources", JList [JStr "http://a"])])])]])
  = [].
Proof.
  exact (proj2 (extract_sources_from_functions_until_raise sample_runtime [])
           [("function", JDict [("arguments", JStr "{bad")])]
           [("arguments", JStr "{bad")] "{bad" ValueError _
           eq_refl eq_refl eq_refl).
Defined.

(** *** More on the scanner *)

(** X13. On an object document the scanner never raises.  On any other
    document it can raise, and then only [AttributeError], from the
    [keys()] call in its handler. *)
Theorem extract_sources_errors (rt : runtime) (response_data : json) :
  (forall d, exists l, _extract_sources rt (JDict d) = Ok l)
  /\ (forall e, _extract_sources rt response_data = Raise e ->
                e = AttributeError /\ is_object response_data = false).
Proof.
  split.
  - intros d. rewrite extract_sources_dict. eauto.
  - intros e. unfold _extract_sources, try_except.
    destruct (snd (extract_sources_body rt response_data [])); [discriminate|].
    destruct response_data; cbn; try discriminate; now intros [= <-].
Qed.

Lemma extract_sources_errors_witness :
  AttributeError = AttributeError /\ is_object (JList [JStr "sources"]) = false.
Proof.
  exact (proj2 (extract_sources_errors sample_runtime (JList [JStr "sources"]))
           AttributeError eq_refl).
Defined.

Lemma snd_bind_Ok {St A B : Type} (m : M St A) (k : A -> M St B) st b :
  snd (bind m k st) = Ok b -> exists a st', snd (k a st') = Ok b.
Proof.
  unfold bind. destruct (m st) as [st' [a|e]]; [|discriminate]. eauto.
Qed.

Lemma extract_sources_body_deduplicated rt rd st u :
  snd (extract_sources_body rt rd st) = Ok u ->
  exists sources, u = _deduplicate_sources rt sources.
Proof.
  unfold extract_sources_body. intros H.
  repeat (apply snd_bind_Ok in H; destruct H as [? [? H]]).
  unfold ret in H. cbn in H. injection H as <-. eauto.
Qed.

(** X14. Whatever the scanner returns is deduplicated: running the
    deduplicator on it changes nothing. *)
Theorem extract_sources_deduplicated (rt : runtime) (response_data : json)
    (l : list json) :
  _extract_sources rt response_data = Ok l -> _deduplicate_sources rt l = l.
Proof.
  unfold _extract_sources, try_except.
  destruct (snd (extract_sources_body rt response_data [])) as [u|e] eqn:Hb.
  - intros [= <-].
    destruct (extract_sources_body_deduplicated _ _ _ _ Hb) as [srcs ->].
    rewrite !deduplicate_sources_from. now apply dedup_from_idempotent.
  - destruct (py_keys response_data); cbn; [|discriminate].
    now intros [= <-].
Qed.

Lemma extract_sources_deduplicated_witness :
  _deduplicate_sources sample_runtime [url_source (JStr "http://a")]
  = [url_source (JStr "http://a")].
Proof.
  exact (extract_sources_deduplicated sample_runtime (JDict failing_parsers_doc)
           _ eq_refl).
Defined.

(** X15. In a choice [function_call] shadows [tool_calls]: when the
    choice has a non-empty [function_call], it alone is handed to the
    function-call extractor; [tool_calls] is used when [function_call] is
    absent or empty. *)
Theorem function_call_shadows_tool_calls (rt : runtime)
    (cd : list (string * json)) (st : list json) :
  dict_get cd "message" = None ->
  (forall fc, dict_get cd "function_call" = Some fc -> truthy fc = true ->
              scan_choice rt (JDict cd) st
              = ((st ++ _extract_sources_from_functions rt fc)%list, Ok tt))
  /\ (forall tc, truthy (dget cd "function_call" JNull) = false ->
                 dict_get cd "tool_calls" = Some tc ->
                 scan_choice rt (JDict cd) st
                 = ((st ++ _extract_sources_from_functions rt tc)%list, Ok tt)).
Proof.
  intros Hm.
  assert (Hw : walkable_choice (JDict cd) = true).
  { cbn [walkable_choice]. now rewrite Hm. }
  rewrite (scan_choice_walkable rt cd st Hw). unfold choice_sources.
  rewrite Hm. cbn [app]. split.
  - intros fc Hfc Ht. unfold has_key, or_val, dget. rewrite Hfc, Ht. reflexivity.
  - intros tc Hf Htc. unfold has_key, or_val. rewrite Hf.
    unfold dget at 1. rewrite Htc. rewrite orb_true_r. reflexivity.
Qed.

Lemma function_call_shadows_tool_calls_witness :
  scan_choice sample_runtime (JDict both_calls_choice) []
  = ([url_source (JStr "http://f")], Ok tt)
  /\ scan_choice sample_runtime (JDict null_call_choice) []
     = ([url_source (JStr "http://t")], Ok tt).
Proof.
  split.
  - exact (proj1 (function_call_shadows_tool_calls sample_runtime
                    both_calls_choice [] eq_refl)
             (JDict [("arguments",
                      JDict [("sources", JList [JStr "http://f"])])])
             eq_refl eq_refl).
  - exact (proj2 (function_call_shadows_tool_calls sample_runtime
                    null_call_choice [] eq_refl)
             (JList [tool_call_with "http://t"]) eq_refl eq_refl).
Defined.

(** X16. A document object with none of the keys the scanner looks at
    ([sources], the six field names, [choices], [context],
    [retrieved_docs]) has no sources. *)
Theorem extract_sources_no_keys (rt : runtime) (d : list (string * json)) :
  no_source_keys d = true -> _extract_sources rt (JDict d) = Ok [].
Proof.
  unfold no_source_keys. rewrite negb_true_iff. intros H.
  cbn [existsb source_fields] in H. repeat rewrite orb_false_iff in H.
  destruct H as [Hs [Hc [Hx [Hr [H1 [H2 [H3 [H4 [H5 [H6 _]]]]]]]]]].
  unfold has_key in *.
  assert (Hw : walkable d = true).
  { unfold walkable. now destruct (dict_get d "choices"). }
  rewrite extract_sources_dict, (extract_sources_body_walkable rt d Hw).
  cbn [snd]. unfold located_sources, fields_sources, choices_sources,
    context_sources, has_key. cbn [flat_map source_fields].
  destruct (dict_get d "sources"); [discriminate|].
  destruct (dict_get d "choices"); [discriminate|].
  destruct (dict_get d "context"); [discriminate|].
  destruct (dict_get d "retrieved_docs"); [discriminate|].
  destruct (dict_get d "citations"); [discriminate|].
  destruct (dict_get d "references"); [discriminate|].
  destruct (dict_get d "links"); [discriminate|].
  destruct (dict_get d "source_documents"); [discriminate|].
  destruct (dict_get d "source_links"); [discriminate|].
  destruct (dict_get d "metadata"); [discriminate|].
  reflexivity.
Qed.

Lemma extract_sources_no_keys_witness :
  _extract_sources sample_runtime (JDict [("message", JStr "hello")]) = Ok [].
Proof.
  exact (extract_sources_no_keys sample_runtime [("message", JStr "hello")]
           eq_refl).
Defined.

(** *** More on the content extractor *)

Lemma error_response rt rd e :
  extract_response_body rt rd = Raise e ->
  _extract_response rt rd
  = Ok {| content := error_content; sources := []; raw_response := rd |}.
Proof. intros H. unfold _extract_response. now rewrite H. Qed.

(** X17. The result of the extractor always carries the document it was
    given and a deduplicated list of sources; for an object document its
    content is never empty. *)
Theorem extract_response_invariants (rt : runtime) (response_data : json) :
  exists r,
    _extract_response rt response_data = Ok r
    /\ raw_response r = response_data
    /\ _deduplicate_sources rt (sources r) = sources r
    /\ (forall d, response_data = JDict d -> (content r =? "") = false).
Proof.
  unfold _extract_response, try_except.
  destruct (extract_response_body rt response_data) as [r|e] eqn:Hb.
  - exists r. split; [reflexivity|].
    unfold extract_response_body in Hb.
    destruct (extract_content response_data) as [c|] eqn:Hc; [|discriminate].
    cbn [rbind] in Hb.
    destruct (_extract_sources rt response_data) as [l|] eqn:Hs;
      [|discriminate].
    cbn [rbind] in Hb. injection Hb as <-. cbn [raw_response sources content].
    split; [reflexivity|]. split.
    + rewrite !deduplicate_sources_from.
      unfold _extract_sources, try_except in Hs.
      destruct (snd (extract_sources_body rt response_data [])) as [u|e] eqn:Hu.
      * injection Hs as <-.
        destruct (extract_sources_body_deduplicated _ _ _ _ Hu) as [srcs ->].
        rewrite !deduplicate_sources_from. now apply dedup_from_idempotent.
      * destruct (py_keys response_data); cbn in Hs; [|discriminate].
        now injection Hs as <-.
    + intros d ->. destruct (c =? "") eqn:E; [|exact E].
      now rewrite strip_dict.
  - eexists. split; [reflexivity|]. cbn [raw_response sources content].
    split; [reflexivity|]. split; [reflexivity|]. intros; reflexivity.
Qed.

Lemma extract_response_invariants_witness :
  exists r,
    _extract_response sample_runtime (JDict blank_response_doc) = Ok r
    /\ (content r =? "") = false.
Proof.
  destruct (extract_response_invariants sample_runtime
              (JDict blank_response_doc)) as [r [H1 [_ [_ H4]]]].
  exists r. split; [exact H1|]. exact (H4 blank_response_doc eq_refl).
Defined.

(** X18. A [content] that is not a string is not skipped: when the
    first choice's message has a [content] of another type (null, as in
    a tool-call reply, a number, a list), [strip] fails and the result is
    the parse-error result, even if the choice also has a [text]. *)
Theorem non_string_content_is_an_error (rt : runtime)
    (d c m : list (string * json)) (rest : list json) (v : json) :
  dict_get d "choices" = Some (JList (JDict c :: rest)) ->
  dict_get c "message" = Some (JDict m) ->
  dict_get m "content" = Some v ->
  (forall s, v <> JStr s) ->
  _extract_response rt (JDict d)
  = Ok {| content := error_content; sources := []; raw_response := JDict d |}.
Proof.
  intros Hd Hm Hv Hs.
  apply (error_response rt (JDict d) AttributeError).
  unfold extract_response_body, extract_content.
  cbn [py_in py_getitem]. rewrite Hd.
  cbn [and_then rbind truthy py_index list_index nth_error py_in py_getitem].
  rewrite Hm. cbn [and_then rbind py_in py_getitem]. rewrite Hv.
  cbn [and_then rbind].
  destruct v; try reflexivity. now destruct (Hs s).
Qed.

Lemma non_string_content_is_an_error_witness :
  _extract_response sample_runtime (JDict null_content_doc)
  = Ok {| content := error_content; sources := [];
          raw_response := JDict null_content_doc |}.
Proof.
  apply (non_string_content_is_an_error sample_runtime null_content_doc
           [("message", JDict [("content", JNull)]); ("text", JStr "hi")]
           [("content", JNull)] [] JNull);
    try reflexivity.
  discriminate.
Defined.

Lemma no_choices_branch d :
  no_choices d = true ->
  and_then (py_in "choices" (JDict d))
    (rbind (py_getitem (JDict d) "choices") (fun v => Ok (truthy v)))
  = Ok false.
Proof.
  unfold no_choices. cbn [py_in py_getitem].
  destruct (dict_get d "choices") as [v|]; [|reflexivity].
  cbn [and_then rbind]. now destruct (truthy v).
Qed.

(** the content of the result for an extracted string *)
Lemma content_of_extracted rt d c :
  extract_content (JDict d) = Ok c ->
  exists r, _extract_response rt (JDict d) = Ok r
            /\ content r = shown_content rt d c.
Proof.
  intros Hc. destruct (response_of_content rt d c Hc) as [srcs [_ H]].
  eexists. split; [exact H | reflexivity].
Qed.

(** X19. Without a non-empty [choices] the first of [response],
    [content], [message] that is present decides: a string [response]
    is used whatever [content] and [message] hold, a string [content] is
    used when there is no [response], and [message] is looked at only
    when both are absent; each is trimmed, and an empty result falls back
    to the rendering of the document. *)
Theorem top_level_branch_order (rt : runtime) (d : list (string * json))
    (s : string) :
  no_choices d = true ->
  (dict_get d "response" = Some (JStr s) ->
   exists r, _extract_response rt (JDict d) = Ok r
             /\ content r = shown_content rt d (strip s))
  /\ (dict_get d "response" = None ->
      dict_get d "content" = Some (JStr s) ->
      exists r, _extract_response rt (JDict d) = Ok r
                /\ content r = shown_content rt d (strip s))
  /\ (dict_get d "response" = None ->
      dict_get d "content" = None ->
      dict_get d "message" = Some (JStr s) ->
      exists r, _extract_response rt (JDict d) = Ok r
                /\ content r = shown_content rt d (strip s))
  /\ (forall m,
        dict_get d "response" = None ->
        dict_get d "content" = None ->
        dict_get d "message" = Some (JDict m) ->
        dict_get m "content" = Some (JStr s) ->
        exists r, _extract_response rt (JDict d) = Ok r
                  /\ content r = shown_content rt d (strip s)).
Proof.
  intros Hn. pose proof (no_choices_branch d Hn) as Hb.
  repeat split.
  - intros Hr. apply content_of_extracted.
    unfold extract_content. rewrite Hb. cbn [rbind py_in py_getitem].
    rewrite Hr. reflexivity.
  - intros Hr Hc. apply content_of_extracted.
    unfold extract_content. rewrite Hb. cbn [rbind py_in py_getitem].
    rewrite Hr, Hc. reflexivity.
  - intros Hr Hc Hm. apply content_of_extracted.
    unfold extract_content. rewrite Hb. cbn [rbind py_in py_getitem].
    rewrite Hr, Hc, Hm. reflexivity.
  - intros m Hr Hc Hm Hmc. apply content_of_extracted.
    unfold extract_content. rewrite Hb. cbn [rbind py_in py_getitem].
    rewrite Hr, Hc, Hm. cbn [rbind py_in py_getitem]. rewrite Hmc. reflexivity.
Qed.

Lemma top_level_branch_order_witness :
  (exists r, _extract_response sample_runtime (JDict response_and_content_doc)
             = Ok r /\ content r = "from response")
  /\ (exists r, _extract_response sample_runtime
                  (JDict [("message", JStr "hello")]) = Ok r
                /\ content r = "hello").
Proof.
  split.
  - exact (proj1 (top_level_branch_order sample_runtime
                    response_and_content_doc " from response " eq_refl)
             eq_refl).
  - exact (proj1 (proj2 (proj2 (top_level_branch_order sample_runtime
                                  [("message", JStr "hello")] "hello" eq_refl)))
             eq_refl eq_refl eq_refl).
Defined.

(** X20. A non-empty [choices] list shadows the other fields: when its
    first element is an object with neither a message holding [content]
    nor a [text], nothing is extracted and the content of the result is
    the rendering of the whole document, even if the document has a
    [response], a [content] or a [message]. *)
Theorem choices_shadow_top_level (rt : runtime)
    (d c : list (string * json)) (rest : list json) :
  dict_get d "choices" = Some (JList (JDict c :: rest)) ->
  (dict_get c "message" = None
   \/ exists m, dict_get c "message" = Some (JDict m)
                /\ dict_get m "content" = None) ->
  dict_get c "text" = None ->
  extract_content (JDict d) = Ok ""
  /\ exists r, _extract_response rt (JDict d) = Ok r
               /\ content r = py_str rt (JDict d).
Proof.
  intros Hd Hm Ht.
  assert (Hc : extract_content (JDict d) = Ok "").
  { unfold extract_content. cbn [py_in py_getitem]. rewrite Hd.
    cbn [and_then rbind truthy py_index list_index nth_error py_in py_getitem].
    destruct Hm as [Hm|[m [Hm Hmc]]]; rewrite Hm;
      cbn [and_then rbind py_in py_getitem].
    - now rewrite Ht.
    - now rewrite Hmc, Ht. }
  split; [exact Hc|]. exact (content_of_extracted rt d "" Hc).
Qed.

Lemma choices_shadow_top_level_witness :
  extract_content (JDict shadowed_response_doc) = Ok ""
  /\ exists r, _extract_response sample_runtime (JDict shadowed_response_doc)
               = Ok r
               /\ content r = py_str sample_runtime (JDict shadowed_response_doc).
Proof.
  exact (choices_shadow_top_level sample_runtime shadowed_response_doc
           [("index", JInt 0)] [] eq_refl (or_introl eq_refl) eq_refl).
Defined.

(** *** The request *)

Lemma extract_response_Ok rt rd :
  exists r, _extract_response rt rd = Ok r /\ raw_response r = rd.
Proof.
  unfold _extract_response, try_except.
  destruct (extract_response_body rt rd) as [r|e] eqn:Hb.
  - exists r. split; [reflexivity|].
    unfold extract_response_body in Hb.
    destruct (extract_content rd); [|discriminate]. cbn [rbind] in Hb.
    destruct (_extract_sources rt rd); [|discriminate]. cbn [rbind] in Hb.
    now injection Hb as <-.
  - eexists. split; reflexivity.
Qed.

Lemma startswith_app p x : startswith (p ++ x) p = true.
Proof.
  unfold startswith. induction p as [|a p IH]; cbn; [now destruct x|].
  destruct (ascii_dec a a); [exact IH | contradiction].
Qed.

Lemma error_result_shape msg :
  exists c srcs status,
    py_getitem (error_result msg) "content" = Ok (JStr c)
    /\ py_getitem (error_result msg) "sources" = Ok (JList srcs)
    /\ py_getitem (error_result msg) "status" = Ok (JStr status)
    /\ (status = "success"
        \/ (status = "error" /\ srcs = []
            /\ startswith c "[ERROR: " = true
            /\ exists m, py_getitem (error_result msg) "error"
                         = Ok (JStr m))).
Proof.
  exists ("[ERROR: " ++ msg ++ "]"), (@nil json), "error".
  split; [reflexivity|]. split; [reflexivity|]. split; [reflexivity|].
  right. split; [reflexivity|]. split; [reflexivity|].
  split; [apply startswith_app|]. now exists msg.
Qed.

(** X21. [generate_response] always returns a dict with a string
    [content], a list [sources] and a [status]; the status is "success"
    or "error", and in every error result the sources are empty, the
    content starts with "[ERROR: " and an [error] message is present.
    Each failure gives its own error result: a missing collection, and
    for a request that has a collection a time-out, a connection
    failure, any other exception of the transport, a body of a 200
    answer that cannot be decoded, and a status other than 200, whose
    result also holds the response time; the status is "success" only
    for a 200 answer with a decodable body. *)
Theorem generate_response_shape (rt : runtime) (exn_message : exn -> string)
    (self : client) (w : world) (prompt : string) (collection : option string) :
  (exists c srcs status,
      py_getitem (generate_response rt exn_message self w prompt collection)
        "content" = Ok (JStr c)
      /\ py_getitem (generate_response rt exn_message self w prompt collection)
           "sources" = Ok (JList srcs)
      /\ py_getitem (generate_response rt exn_message self w prompt collection)
           "status" = Ok (JStr status)
      /\ (status = "success"
          \/ (status = "error" /\ srcs = []
              /\ startswith c "[ERROR: " = true
              /\ exists msg,
                   py_getitem (generate_response rt exn_message self w prompt
                                 collection) "error" = Ok (JStr msg))))
  /\ (forall target,
        target_collection self collection = Some target ->
        (post w (base_url self ++ "/api/chat/completions")
              (payload self prompt target) = inl Timeout ->
         generate_response rt exn_message self w prompt collection
         = error_result "API request timed out")
        /\ (post w (base_url self ++ "/api/chat/completions")
                  (payload self prompt target) = inl ConnectionError ->
            generate_response rt exn_message self w prompt collection
            = error_result ("Failed to connect to " ++ base_url self))
        /\ (forall message,
              post w (base_url self ++ "/api/chat/completions")
                   (payload self prompt target) = inl (OtherError message) ->
              generate_response rt exn_message self w prompt collection
              = error_result ("Response generation failed: " ++ message))
        /\ (forall response message,
              post w (base_url self ++ "/api/chat/completions")
                   (payload self prompt target) = inr response ->
              status_code response = 200%Z ->
              json_body response = inl message ->
              generate_response rt exn_message self w prompt collection
              = error_result ("Response generation failed: " ++ message))
        /\ (forall response,
              post w (base_url self ++ "/api/chat/completions")
                   (payload self prompt target) = inr response ->
              status_code response <> 200%Z ->
              generate_response rt exn_message self w prompt collection
              = JDict [("content",
                        JStr ("[ERROR: API request failed - "
                              ++ str_of_int (status_code response) ++ "]"));
                       ("sources", JList []);
                       ("status", JStr "error");
                       ("error",
                        JStr ("API request failed with status "
                              ++ str_of_int (status_code response) ++ ": "
                              ++ text response));
                       ("response_time",
                        JFloat (SFsub prec emax (time_done w)
                                  (time_start w)))])
        /\ (py_getitem (generate_response rt exn_message self w prompt
                          collection) "status" = Ok (JStr "success") ->
            exists response body,
              post w (base_url self ++ "/api/chat/completions")
                   (payload self prompt target) = inr response
              /\ status_code response = 200%Z
              /\ json_body response = inr body))
  /\ (target_collection self collection = None ->
      generate_response rt exn_message self w prompt collection
      = error_result
          "Response generation failed: Collection is required - provide via parameter or COLLECTION env variable").
Proof.
  split; [|split].
  - unfold generate_response, generate_response_body.
    destruct (target_collection self collection) as [target|];
      [|apply error_result_shape].
    destruct (post w _ _) as [[| |msg]|response]; try apply error_result_shape.
    destruct (status_code response =? 200)%Z.
    + destruct (json_body response) as [msg|body]; [apply error_result_shape|].
      destruct (_extract_response rt body) as [r|e];
        [|apply error_result_shape].
      exists (content r), (sources r), "success".
      split; [reflexivity|]. split; [reflexivity|]. split; [reflexivity|].
      now left.
    + eexists _, (@nil json), "error".
      split; [reflexivity|]. split; [reflexivity|]. split; [reflexivity|].
      right. split; [reflexivity|]. split; [reflexivity|].
      split; [apply (startswith_app "[ERROR: ")|]. eexists. reflexivity.
  - intros target Ht. unfold generate_response, generate_response_body.
    rewrite Ht.
    split; [now intros ->|]. split; [now intros ->|].
    split; [now intros message ->|].
    split; [|split].
    + intros response message -> Hs Hb. rewrite Hs, Hb. reflexivity.
    + intros response -> Hs. apply Z.eqb_neq in Hs. now rewrite Hs.
    + destruct (post w _ _) as [[| |msg]|response]; try discriminate.
      destruct (status_code response =? 200)%Z eqn:Hs; [|discriminate].
      apply Z.eqb_eq in Hs.
      destruct (json_body response) as [msg|body] eqn:Hb; [discriminate|].
      intros _. now exists response, body.
  - intros Ht. unfold generate_response, generate_response_body.
    now rewrite Ht.
Qed.

Lemma generate_response_shape_witness :
  generate_response sample_runtime sample_exn_message sample_client
    (failing Timeout) "hi" None
  = error_result "API request timed out"
  /\ generate_response sample_runtime sample_exn_message sample_client
       (failing ConnectionError) "hi" None
     = error_result "Failed to connect to http://localhost"
  /\ generate_response sample_runtime sample_exn_message sample_client
       (failing (OtherError "boom")) "hi" None
     = error_result "Response generation failed: boom"
  /\ generate_response sample_runtime sample_exn_message sample_client
       (answering_text 200 "<html>") "hi" None
     = error_result "Response generation failed: Expecting value"
  /\ generate_response sample_runtime sample_exn_message sample_client
       (answering_text 503 "down") "hi" None
     = JDict [("content", JStr "[ERROR: API request failed - 503]");
              ("sources", JList []);
              ("status", JStr "error");
              ("error", JStr "API request failed with status 503: down");
              ("response_time", JFloat (S754_zero false))]
  /\ (exists response body,
        post (answering (JDict [("message", JStr "hello")]))
          (base_url sample_client ++ "/api/chat/completions")
          (payload sample_client "hi" "docs") = inr response
        /\ status_code response = 200%Z
        /\ json_body response = inr body).
Proof.
  pose proof (fun w =>
                proj1 (proj2 (generate_response_shape sample_runtime
                                sample_exn_message sample_client w "hi" None))
                  "docs" eq_refl) as H.
  split; [exact (proj1 (H (failing Timeout)) eq_refl)|].
  split; [exact (proj1 (proj2 (H (failing ConnectionError))) eq_refl)|].
  split; [exact (proj1 (proj2 (proj2 (H (failing (OtherError "boom")))))
                   "boom" eq_refl)|].
  split; [exact (proj1 (proj2 (proj2 (proj2 (H (answering_text 200 "<html>")))))
                   _ "Expecting value" eq_refl eq_refl eq_refl)|].
  split.
  - refine (proj1 (proj2 (proj2 (proj2 (proj2 (H (answering_text 503 "down"))))))
              _ eq_refl _).
    simpl. lia.
  - exact (proj2 (proj2 (proj2 (proj2 (proj2
             (H (answering (JDict [("message", JStr "hello")]))))))) eq_refl).
Defined.

(** X22. Without a collection no request is made: when the parameter is
    missing or empty and so is the configured collection, the result is
    the same error result whatever the transport would do. *)
Theorem generate_response_without_collection (rt : runtime)
    (exn_message : exn -> string) (self : client) (w : world)
    (prompt : string) (collection : option string) :
  (collection = None \/ collection = Some "") ->
  (WebUIClientApi.collection self = None
   \/ WebUIClientApi.collection self = Some "") ->
  generate_response rt exn_message self w prompt collection
  = error_result
      "Response generation failed: Collection is required - provide via parameter or COLLECTION env variable".
Proof.
  intros Hc Hs. unfold generate_response, generate_response_body,
    target_collection.
  destruct Hc as [-> | ->], Hs as [-> | ->]; reflexivity.
Qed.

Lemma generate_response_without_collection_witness :
  generate_response sample_runtime sample_exn_message
    {| api_key := "k"; base_url := "http://localhost"; collection := None;
       model := "m"; headers := [] |}
    (answering JNull) "hello" (Some "")
  = error_result
      "Response generation failed: Collection is required - provide via parameter or COLLECTION env variable".
Proof.
  apply generate_response_without_collection.
  - right. reflexivity.
  - left. reflexivity.
Defined.

(** X23. When the server answers 200 with a JSON body, the result holds
    the content and the sources the extractor gives for that body, the
    body itself, the status "success", the model and the collection that
    was used; a non-empty collection parameter is used in place of the
    configured one. *)
Theorem generate_response_success (rt : runtime) (exn_message : exn -> string)
    (self : client) (w : world) (prompt : string) (collection : option string)
    (target : string) (response : http_response) (body : json) :
  target_collection self collection = Some target ->
  post w (base_url self ++ "/api/chat/completions")
       (payload self prompt target) = inr response ->
  status_code response = 200%Z ->
  json_body response = inr body ->
  (exists r,
      _extract_response rt body = Ok r
      /\ generate_response rt exn_message self w prompt collection
         = JDict [("content", JStr (content r));
                  ("sources", JList (sources r));
                  ("raw_response", body);
                  ("status", JStr "success");
                  ("response_time",
                   JFloat (SFsub prec emax (time_done w) (time_start w)));
                  ("model_used", JStr (model self));
                  ("collection_used", JStr target);
                  ("timestamp", JFloat (time_stamp w))])
  /\ (forall c, (c =? "") = false ->
                target_collection self (Some c) = Some c).
Proof.
  intros Ht Hp Hs Hb. split.
  - destruct (extract_response_Ok rt body) as [r [Hr Hraw]].
    exists r. split; [exact Hr|].
    unfold generate_response, generate_response_body.
    rewrite Ht, Hp, Hs, Hb, Hr, Hraw. reflexivity.
  - intros c Hc. unfold target_collection. now rewrite Hc.
Qed.

Lemma generate_response_success_witness :
  exists r,
    _extract_response sample_runtime (JDict [("message", JStr "hello")]) = Ok r
    /\ generate_response sample_runtime sample_exn_message sample_client
         (answering (JDict [("message", JStr "hello")])) "hi" (Some "c2")
       = JDict [("content", JStr (content r));
                ("sources", JList (sources r));
                ("raw_response", JDict [("message", JStr "hello")]);
                ("status", JStr "success");
                ("response_time", JFloat (S754_zero false));
                ("model_used", JStr "gemma3:4b");
                ("collection_used", JStr "c2");
                ("timestamp", JFloat (S754_zero false))].
Proof.
  exact (proj1 (generate_response_success sample_runtime sample_exn_message
                  sample_client (answering (JDict [("message", JStr "hello")]))
                  "hi" (Some "c2") "c2"
                  {| status_code := 200; text := "";
                     json_body := inr (JDict [("message", JStr "hello")]) |}
                  (JDict [("message", JStr "hello")])
                  eq_refl eq_refl eq_refl eq_refl)).
Defined.

(** *** The constructor *)

Lemma rstrip_slash_no_trailing s : forall t, rstrip_slash s <> t ++ "/".
Proof.
  induction s as [|c r IH]; intros t; cbn [rstrip_slash].
  - destruct t; discriminate.
  - destruct (rstrip_slash r) as [|c' r'] eqn:Hr.
    + destruct (Ascii.eqb_spec c "/") as [->|Hc].
      * destruct t; discriminate.
      * destruct t as [|c1 t]; cbn.
        -- intros [= ->]. now destruct Hc.
        -- intros [= _ H]. destruct t; discriminate.
    + destruct t as [|c1 t]; cbn.
      * discriminate.
      * intros [= _ H]. now apply (IH t).
Qed.

Lemma rstrip_slash_suffix s : exists n, s = rstrip_slash s ++ slashes n.
Proof.
  induction s as [|c r [n IH]]; cbn [rstrip_slash].
  - now exists 0.
  - destruct (rstrip_slash r) as [|c' r'] eqn:Hr.
    + destruct (Ascii.eqb_spec c "/") as [->|Hc].
      * exists (S n). cbn in *. now rewrite IH at 1.
      * exists n. cbn in *. now rewrite IH at 1.
    + exists n. cbn in *. now rewrite IH at 1.
Qed.

(** X24. The constructor succeeds only with a non-empty WEBUI_API_KEY,
    and raises [ValueError] when the key is missing or empty.  The base
    URL of a constructed client is the configured one without its
    trailing slashes, so it never ends with a slash; the Authorization
    header carries the key. *)
Theorem init_configuration (getenv : string -> option string)
    (base_url model : string) :
  (forall c,
      __init__ getenv base_url model = Ok c ->
      getenv "WEBUI_API_KEY" = Some (api_key c)
      /\ (api_key c =? "") = false
      /\ (exists n, env_or (getenv "WEBUI_API_URL") base_url
                    = WebUIClientApi.base_url c ++ slashes n)
      /\ (forall t, WebUIClientApi.base_url c <> t ++ "/")
      /\ headers c = [("Authorization", "Bearer " ++ api_key c);
                      ("Content-Type", "application/json")])
  /\ (getenv "WEBUI_API_KEY" = None \/ getenv "WEBUI_API_KEY" = Some "" ->
      __init__ getenv base_url model = Raise ValueError).
Proof.
  unfold __init__. split.
  - intros c. destruct (getenv "WEBUI_API_KEY") as [key|]; [|discriminate].
    destruct (key =? "") eqn:Hk; [discriminate|].
    intros [= <-]. cbn. repeat split; try assumption.
    + apply rstrip_slash_suffix.
    + apply rstrip_slash_no_trailing.
  - intros [-> | ->]; reflexivity.
Qed.

Lemma init_configuration_witness :
  (forall t, "http://host" <> t ++ "/")
  /\ __init__ (fun _ => None) "http://localhost" "gemma3:4b" = Raise ValueError.
Proof.
  split.
  - exact (proj1 (proj2 (proj2 (proj2
             (proj1 (init_configuration sample_getenv "http://localhost"
                       "gemma3:4b")
                {| api_key := "k"; base_url := "http://host";
                   collection := None; model := "gemma3:4b";
                   headers := [("Authorization", "Bearer k");
                               ("Content-Type", "application/json")] |}
                eq_refl))))).
  - exact (proj2 (init_configuration (fun _ => None) "http://localhost"
                    "gemma3:4b") (or_introl eq_refl)).
Defined.

(** *** Display *)

Lemma extends_refl parts : extends parts parts.
Proof. exists []. now rewrite app_nil_r. Qed.

Lemma extends_trans a b c : extends a b -> extends b c -> extends a c.
Proof. intros [m1 ->] [m2 ->]. exists (m1 ++ m2)%list. now rewrite app_assoc. Qed.

Lemma add_part_extends source field render parts parts' :
  add_part source field render parts = Ok parts' -> extends parts parts'.
Proof.
  unfold add_part.
  destruct (py_get source field JNull) as [present|]; [|discriminate].
  cbn [rbind]. destruct (truthy present); [|intros [= <-]; apply extends_refl].
  destruct (py_getitem source field) as [v|]; [|discriminate]. cbn [rbind].
  destruct (render v) as [s|]; [|discriminate]. cbn [rbind].
  intros [= <-]. now exists [s].
Qed.

Lemma concat_starts sep p more :
  startswith (String.concat sep ((p :: more))) p = true.
Proof.
  destruct more as [|q more]; cbn [String.concat].
  - rewrite <- (startswith_app p "") at 1. f_equal.
    induction p as [|a p IH]; cbn; [reflexivity | now rewrite <- IH].
  - apply startswith_app.
Qed.

Lemma add_relevance_extends (relevant : bool) source
    (fixed3 : json -> string) parts parts' :
  (if relevant
   then rbind (py_getitem source "score") (fun v =>
          rbind (format_fixed3 fixed3 v) (fun text =>
          Ok (parts ++ [(newline ++ "   Relevance: " ++ text)%string])%list))
   else Ok parts) = Ok parts' ->
  extends parts parts'.
Proof.
  destruct relevant; [|intros [= <-]; apply extends_refl].
  destruct (py_getitem source "score") as [v|]; [|discriminate].
  cbn [rbind]. destruct (format_fixed3 fixed3 v); [|discriminate].
  cbn [rbind]. intros [= <-]. eexists. reflexivity.
Qed.

Lemma format_source_starts rt fixed3 i source line :
  format_source rt fixed3 i source = Ok line ->
  startswith line (str_of_int (Z.of_nat i) ++ ".") = true.
Proof.
  unfold format_source.
  repeat match goal with
         | |- rbind (add_part ?s ?f ?r ?p) _ = Ok _ -> _ =>
             let H := fresh "H" in
             destruct (add_part s f r p) eqn:H; [|discriminate];
             apply add_part_extends in H; cbn [rbind]
         end.
  destruct (rbind (py_get source "score" (JInt 0)) positive) as [relevant|];
    [|discriminate].
  cbn [rbind].
  match goal with
  | |- rbind ?step _ = Ok _ -> _ =>
      destruct step as [parts|] eqn:Hp; [|discriminate]
  end.
  apply add_relevance_extends in Hp.
  cbn [rbind]. intros [= <-].
  assert (He : extends [str_of_int (Z.of_nat i) ++ "."] parts).
  { repeat (eapply extends_trans; [eassumption|]). apply extends_refl. }
  destruct He as [more ->]. apply concat_starts.
Qed.

Lemma format_from_lines rt fixed3 sources :
  forall i lines,
    format_from rt fixed3 i sources = Ok lines ->
    length lines = length sources
    /\ forall k line,
         nth_error lines k = Some line ->
         startswith line (str_of_int (Z.of_nat (i + k)) ++ ".") = true.
Proof.
  induction sources as [|s r IH]; intros i lines; cbn [format_from].
  - intros [= <-]. split; [reflexivity|]. intros [|k] line; discriminate.
  - destruct (format_source rt fixed3 i s) as [line0|] eqn:H0; [|discriminate].
    cbn [rbind].
    destruct (format_from rt fixed3 (S i) r) as [rest|] eqn:Hr; [|discriminate].
    cbn [rbind]. intros [= <-]. destruct (IH _ _ Hr) as [Hlen Hk].
    split; [cbn; now rewrite Hlen|].
    intros [|k] line; cbn [nth_error].
    + intros [= <-]. rewrite Nat.add_0_r. now apply format_source_starts in H0.
    + intros Hn. rewrite Nat.add_succ_r. now apply Hk.
Qed.

(** X25. When formatting returns, there is one line per source, in
    order, and the k-th line starts with its number, counted from 1,
    and a dot. *)
Theorem formatted_sources_numbered (rt : runtime) (fixed3 : json -> string)
    (sources : list json) (lines : list string) :
  get_formatted_sources rt fixed3 sources = Ok lines ->
  length lines = length sources
  /\ forall k line,
       nth_error lines k = Some line ->
       startswith line (str_of_int (Z.of_nat (S k)) ++ ".") = true.
Proof.
  intros H. apply (format_from_lines rt fixed3 sources 1 lines H).
Qed.

Lemma formatted_sources_numbered_witness :
  length ["1. " ++ newline ++ "   http://a"; "2. " ++ newline ++ "   http://b"]
  = length [url_source (JStr "http://a"); url_source (JStr "http://b")]
  /\ forall k line,
       nth_error ["1. " ++ newline ++ "   http://a";
                  "2. " ++ newline ++ "   http://b"] k = Some line ->
       startswith line (str_of_int (Z.of_nat (S k)) ++ ".") = true.
Proof.
  exact (formatted_sources_numbered sample_runtime sample_fixed3
           [url_source (JStr "http://a"); url_source (JStr "http://b")]
           _ eq_refl).
Defined.

Lemma add_part_dict d field render parts :
  add_part (JDict d) field render parts
  = match dict_get d field with
    | Some v => if truthy v
                then rbind (render v) (fun s => Ok (parts ++ [s])%list)
                else Ok parts
    | None => Ok parts
    end.
Proof.
  unfold add_part. cbn [py_get py_getitem rbind].
  destruct (dict_get d field) as [v|]; [|reflexivity].
  now destruct (truthy v).
Qed.

Lemma display_snippet_string s :
  display_snippet (JStr s)
  = Ok (JStr (if (200 <? String.length s)%nat
              then substring 0 200 s ++ "..." else s)).
Proof.
  unfold display_snippet. cbn [py_len rbind].
  now destruct (200 <? String.length s)%nat.
Qed.

(** One statement of the loop body on a dict literal. *)
Ltac fstep :=
  repeat first [ rewrite add_part_dict; cbn [dict_get]; simpl String.eqb;
                 cbv iota
               | progress cbn [rbind] ].

Lemma relevance_of_number fixed3 score :
  is_number score = true ->
  exists relevant,
    positive score = Ok relevant
    /\ ((relevant = false /\ score_displayable
                               (JDict [("score", score)]) = true)
        \/ (relevant = true
            /\ if score_displayable (JDict [("score", score)])
               then exists text, format_fixed3 fixed3 score = Ok text
               else format_fixed3 fixed3 score = Raise OverflowError)).
Proof.
  unfold score_displayable. cbn [py_getitem dict_get]. simpl String.eqb.
  cbv iota.
  destruct score as [|b|n|x| | |]; try discriminate; intros _;
    cbn [positive format_fixed3].
  - destruct b; eexists; split; try reflexivity; [right|left]; eauto.
  - exists (0 <? n)%Z. split; [reflexivity|].
    destruct (0 <? n)%Z; cbn [andb negb]; [right|left; now split].
    split; [reflexivity|]. destruct (float_overflows n); cbn [negb]; eauto.
  - eexists. split; [reflexivity|].
    destruct (SFltb (S754_zero false) x); [right|left]; eauto.
Qed.

Lemma score_displayable_record rt cid ctype md score doc :
  score_displayable (document_record rt cid ctype md score doc)
  = score_displayable (JDict [("score", score)]).
Proof. reflexivity. Qed.

Lemma format_source_openwebui rt fixed3 i r :
  openwebui_record rt r ->
  if score_displayable r
  then exists line, format_source rt fixed3 i r = Ok line
  else format_source rt fixed3 i r = Raise OverflowError.
Proof.
  intros [cid [ctype [md [score [doc [-> Hn]]]]]].
  rewrite score_displayable_record.
  destruct (relevance_of_number fixed3 score Hn) as [b [Hb Hcase]].
  unfold format_source, document_record.
  repeat (fstep;
          match goal with
          | |- context [if truthy ?x then _ else _] => destruct (truthy x)
          end).
  all: fstep; rewrite ?display_snippet_string;
    cbn [rbind py_get py_getitem dict_get]; simpl String.eqb; cbv iota;
    cbn [rbind]; rewrite Hb; cbn [rbind];
    destruct Hcase as [[-> ->]|[-> Hd]]; cbn [rbind]; eauto;
    destruct (score_displayable (JDict [("score", score)]));
    [destruct Hd as [text ->]; cbn [rbind]; eauto
    | rewrite Hd; reflexivity].
Qed.

Lemma format_from_openwebui rt fixed3 l :
  Forall (openwebui_record rt) l ->
  forall i,
    if forallb score_displayable l
    then exists lines, format_from rt fixed3 i l = Ok lines
    else format_from rt fixed3 i l = Raise OverflowError.
Proof.
  induction 1 as [|r l Hr _ IH]; intros i; cbn [format_from forallb];
    [eauto|].
  pose proof (format_source_openwebui rt fixed3 i r Hr) as Hs.
  destruct (score_displayable r); cbn [andb].
  - destruct Hs as [line ->]. cbn [rbind]. specialize (IH (S i)).
    destruct (forallb score_displayable l).
    + destruct IH as [lines ->]. cbn [rbind]. eauto.
    + now rewrite IH.
  - now rewrite Hs.
Qed.

Lemma deduplicate_singleton rt x : _deduplicate_sources rt [x] = [x].
Proof.
  rewrite deduplicate_sources_from. cbn [dedup_from].
  destruct (dedup_key rt x) as [key|e] eqn:Hk; [|reflexivity].
  destruct (dedup_key_Ok_dict rt x key Hk) as [d [-> ->]].
  now rewrite record_key_nonempty.
Qed.

Lemma overflowing_group_parsed rt :
  _parse_openwebui_sources rt (JList [overflowing_group])
  = [document_record rt (JStr "") (JStr "") [] (JInt (1 - - (2 ^ 1024)))
       (JStr "doc")].
Proof. reflexivity. Qed.

(** X26. Displaying what the OpenWebUI parser and the deduplicator return
    for a value of a decoded document (no integer of more than 4300
    digits) either gives one line per record kept or raises
    [OverflowError]: it raises exactly when the score [1 - distance] of a
    record kept is a positive [int] beyond the range of a [float], as for
    a distance of -(2^1024). *)
Theorem formatted_openwebui_sources (rt : runtime) (fixed3 : json -> string)
    (v : json) :
  exceeds_limit v = false ->
  (if forallb score_displayable
        (_deduplicate_sources rt (_parse_openwebui_sources rt v))
   then exists lines,
          get_formatted_sources rt fixed3
            (_deduplicate_sources rt (_parse_openwebui_sources rt v))
          = Ok lines
          /\ length lines
             = length (_deduplicate_sources rt (_parse_openwebui_sources rt v))
   else get_formatted_sources rt fixed3
          (_deduplicate_sources rt (_parse_openwebui_sources rt v))
        = Raise OverflowError)
  /\ get_formatted_sources rt fixed3
       (_deduplicate_sources rt
          (_parse_openwebui_sources rt (JList [overflowing_group])))
     = Raise OverflowError.
Proof.
  assert (HF : forall u, Forall (openwebui_record rt)
                 (_deduplicate_sources rt (_parse_openwebui_sources rt u))).
  { intros u. apply (subsequence_Forall _ _ (_parse_openwebui_sources rt u)).
    - rewrite deduplicate_sources_from. apply dedup_from_subsequence.
    - apply parse_openwebui_sources_Forall. }
  intros _. split.
  - pose proof (format_from_openwebui rt fixed3 _ (HF v) 1) as H.
    unfold get_formatted_sources.
    destruct (forallb score_displayable _); [|exact H].
    destruct H as [lines Hl]. exists lines. split; [exact Hl|].
    now apply (format_from_lines rt fixed3 _ 1 lines).
  - pose proof (format_from_openwebui rt fixed3 _ (HF (JList [overflowing_group])) 1)
      as H.
    rewrite overflowing_group_parsed, deduplicate_singleton in H.
    rewrite overflowing_group_parsed, deduplicate_singleton.
    cbn [forallb] in H.
    rewrite score_displayable_record in H.
    replace (score_displayable
               (JDict [("score", JInt (1 - - (2 ^ 1024)))])) with false in H
      by (vm_compute; reflexivity).
    exact H.
Qed.

Lemma formatted_openwebui_sources_witness :
  (exists lines,
      get_formatted_sources sample_runtime sample_fixed3
        (_deduplicate_sources sample_runtime
           (_parse_openwebui_sources sample_runtime (JList [ragged_group])))
      = Ok lines
      /\ length lines
         = length (_deduplicate_sources sample_runtime
                     (_parse_openwebui_sources sample_runtime
                        (JList [ragged_group]))))
  /\ get_formatted_sources sample_runtime sample_fixed3
       (_deduplicate_sources sample_runtime
          (_parse_openwebui_sources sample_runtime (JList [overflowing_group])))
     = Raise OverflowError.
Proof.
  exact (formatted_openwebui_sources sample_runtime sample_fixed3
           (JList [ragged_group]) eq_refl).
Defined.

(** X27. The formatter has no guard of its own: a record of the generic
    parser whose snippet is a non-zero number (the parser copies the
    value as it is) makes [len] fail, and formatting the parser's result
    raises [TypeError]. *)
Theorem formatted_numeric_snippet_raises (rt : runtime)
    (fixed3 : json -> string) (d : list (string * json)) (v : json) :
  truthy (object_url d) || truthy (dget d "title" (JStr "")) = true ->
  py_getitem (object_record d) "snippet" = Ok v ->
  is_number v = true -> truthy v = true ->
  get_formatted_sources rt fixed3 (_parse_source_field (JDict d))
  = Raise TypeError.
Proof.
  intros Hk Hv Hn Ht. rewrite parse_source_field_spec.
  unfold object_sources. rewrite Hk.
  unfold get_formatted_sources. cbn [format_from].
  assert (H : format_source rt fixed3 1 (object_record d) = Raise TypeError).
  { cbn [py_getitem object_record dict_get] in Hv. simpl String.eqb in Hv.
    cbv iota in Hv. injection Hv as Hv.
    unfold format_source, object_record. rewrite Hv.
    repeat (fstep;
            first [ rewrite Ht
                  | match goal with
                    | |- context [if truthy ?x then _ else _] =>
                        destruct (truthy x)
                    end ]).
    all: fstep; destruct v; try discriminate; reflexivity. }
  now rewrite H.
Qed.

Lemma formatted_numeric_snippet_raises_witness :
  get_formatted_sources sample_runtime sample_fixed3
    (_parse_source_field (JDict numeric_snippet_item))
  = Raise TypeError.
Proof.
  exact (formatted_numeric_snippet_raises sample_runtime sample_fixed3
           numeric_snippet_item (JInt 5) eq_refl eq_refl eq_refl eq_refl).
Defined.

(** X28. The snippet shown for a string is at most 203 characters: a
    string of up to 200 characters is shown as it is, a longer one is cut
    to its first 200 characters followed by "...". *)
Theorem display_snippet_bound (s : string) :
  exists t,
    display_snippet (JStr s) = Ok (JStr t)
    /\ String.length t <= 203
    /\ (String.length s <= 200 -> t = s)
    /\ (200 < String.length s -> t = substring 0 200 s ++ "...").
Proof.
  rewrite display_snippet_string. eexists. split; [reflexivity|].
  destruct (Nat.ltb_spec 200 (String.length s)) as [H|H].
  - split; [|split; [lia | reflexivity]].
    rewrite string_length_app. pose proof (substring_length 200 s).
    simpl String.length at 2. lia.
  - split; [lia|]. split; [reflexivity | lia].
Qed.

Lemma display_snippet_bound_witness :
  exists t, display_snippet (JStr "short") = Ok (JStr t) /\ t = "short".
Proof.
  destruct (display_snippet_bound "short") as [t [H1 [_ [H3 _]]]].
  exists t. split; [exact H1|]. apply H3. simpl. lia.
Defined.

